(** * VncServerProtocol: the server side of the Veyon RFB handshake

    A shallow embedding of [service/src/VncServerProtocol.cpp].  The
    methods of the C++ class mutate the protocol object (its socket and
    its client record); they are written here in a state monad over that
    object, one definition per method, in the order of the source. *)

From Stdlib Require Import String Bool Arith ZArith NArith Lia List.
From Stdlib Require Import Init.Byte Strings.Byte.
From ExtLib Require Import Structures.Monad Structures.MonadState.
From ExtLib Require Import Data.Monads.StateMonad.
Import ListNotations.
Import MonadNotation.
Local Open Scope monad_scope.
Local Open Scope bool_scope.

(** ** Enumerations *)

(** [VncServerProtocol::State], the names the source switches on. *)
Inductive State : Type :=
| Disconnected
| Protocol
| SecurityInit
| AuthenticationTypes
| Authenticating
| AccessControl
| FramebufferInit
| Running
| Close.

Definition State_eqb (a b : State) : bool :=
  match a, b with
  | Disconnected, Disconnected | Protocol, Protocol
  | SecurityInit, SecurityInit | AuthenticationTypes, AuthenticationTypes
  | Authenticating, Authenticating | AccessControl, AccessControl
  | FramebufferInit, FramebufferInit | Running, Running | Close, Close => true
  | _, _ => false
  end.

(** Position of a phase in the handshake order. *)
Definition phaseRank (s : State) : nat :=
  match s with
  | Disconnected => 0
  | Protocol => 1
  | SecurityInit => 2
  | AuthenticationTypes => 3
  | Authenticating => 4
  | AccessControl => 5
  | FramebufferInit => 6
  | Running => 7
  | Close => 8
  end.

(** Modelled from the spec: [VncServerClient::AuthState] is declared in
    VncServerClient.h, which is not part of the sources at hand.  The
    source names [AuthFinishedSuccess] and [AuthFinishedFail]; the other
    two values are the spec's NotStarted and InProgress. *)
Inductive AuthState : Type :=
| AuthNotStarted
| AuthInProgress
| AuthFinishedSuccess
| AuthFinishedFail.

(** Modelled from the spec: [VncServerClient::AccessControlState], also
    declared in VncServerClient.h.  The source names Init, Waiting,
    Pending and Successful; the spec adds Failed. *)
Inductive AccessControlState : Type :=
| AccessControlInit
| AccessControlWaiting
| AccessControlPending
| AccessControlSuccessful
| AccessControlFailed.

(** ** The transport *)

(** [QTcpSocket], as far as the handshake uses it: a buffered,
    non-blocking byte stream.  [readBuffer] holds the bytes that have
    arrived and have not been read, [written] the bytes handed to the
    peer, oldest first.  A closed device has no bytes available, refuses
    reads and writes, and [close] drops the read buffer. *)
Record QTcpSocket : Type := mkSocket {
  isOpen : bool;
  readBuffer : list byte;
  written : list byte;
  peerAddress : string
}.

Definition sock_bytesAvailable (s : QTcpSocket) : nat :=
  if isOpen s then length (readBuffer s) else 0.

(** [read(maxSize)]: [None] is the error result (-1). *)
Definition sock_read (n : nat) (s : QTcpSocket) : option (list byte) * QTcpSocket :=
  if isOpen s
  then (Some (firstn n (readBuffer s)),
        mkSocket true (skipn n (readBuffer s)) (written s) (peerAddress s))
  else (None, s).

Definition sock_write (d : list byte) (s : QTcpSocket) : QTcpSocket :=
  if isOpen s
  then mkSocket true (readBuffer s) (written s ++ d) (peerAddress s)
  else s.

Definition sock_close (s : QTcpSocket) : QTcpSocket :=
  mkSocket false [] (written s) (peerAddress s).

(** ** Constants of rfb/rfbproto.h, and the libc and Qt helpers *)

(** Modelled from the spec: [sz_rfbProtocolVersionMsg] of rfb/rfbproto.h,
    the length of the version banner, which the spec gives as the
    twelve bytes of ["RFB 003.008\n"]. *)
Definition sz_rfbProtocolVersionMsg : nat := 12.

(** Modelled from the spec: [rfbVncAuthOK] of rfb/rfbproto.h, the
    success code, which the spec gives as 00000000. *)
Definition rfbVncAuthOK : Z := 0.

Definition byte_of_Z (z : Z) : byte :=
  match Byte.of_N (Z.to_N (Z.land z 255)) with
  | Some b => b
  | None => x00
  end.

(** [qToBigEndian<uint32_t>] followed by the byte-wise view of the
    result: most significant byte first. *)
Definition qToBigEndian32 (v : Z) : list byte :=
  let w := Z.land v 4294967295 in
  [ byte_of_Z (Z.shiftr w 24); byte_of_Z (Z.shiftr w 16);
    byte_of_Z (Z.shiftr w 8); byte_of_Z w ].

Definition isspace (b : byte) : bool :=
  let n := Byte.to_N b in
  (N.eqb n 32 || (N.leb 9 n && N.leb n 13))%N.

Definition isdigit (b : byte) : bool :=
  let n := Byte.to_N b in (N.leb 48 n && N.leb n 57)%N.

Definition digitValue (b : byte) : Z := Z.of_N (Byte.to_N b) - 48.

(** A C string ends at its first NUL byte. *)
Fixpoint cstring (l : list byte) : list byte :=
  match l with
  | [] => []
  | b :: l' => if Byte.eqb b x00 then [] else b :: cstring l'
  end.

Fixpoint skipSpaces (l : list byte) : list byte :=
  match l with
  | b :: l' => if isspace b then skipSpaces l' else l
  | [] => []
  end.

(** At most [width] decimal digits from the front of [l], accumulated
    onto [acc]; the count of digits read comes back with the rest. *)
Fixpoint scanDigits (width : nat) (acc : Z) (l : list byte) : nat * Z * list byte :=
  match width, l with
  | S w, b :: l' =>
      if isdigit b
      then let '(n, v, r) := scanDigits w (10 * acc + digitValue b) l' in (S n, v, r)
      else (0, acc, l)
  | _, _ => (0, acc, l)
  end.

(** The [%03d] conversion of [sscanf]: blanks are skipped, an optional
    sign counts towards the field width of three, and at least one
    digit must follow. *)
Definition scan_03d (l : list byte) : option (Z * list byte) :=
  let l0 := skipSpaces l in
  let '(neg, width, l1) :=
    match l0 with
    | b :: l' =>
        if Byte.eqb b "-"%byte then (true, 2, l')
        else if Byte.eqb b "+"%byte then (false, 2, l')
        else (false, 3, l0)
    | [] => (false, 3, l0)
    end in
  match scanDigits width 0 l1 with
  | (0, _, _) => None
  | (_, v, r) => Some (if neg then (- v)%Z else v, r)
  end.

(** [sscanf( protocol, rfbProtocolVersionFormat, &major, &minor )] with
    the format ["RFB %03d.%03d\n"] of rfb/rfbproto.h, which renders
    version 3.8 as the banner of the spec: [Some] exactly when both conversions
    succeed, that is when the call returns 2.  The blank of the format
    matches any run of white space, the final newline of the format
    comes after the last conversion and cannot change the count. *)
Definition sscanf_rfbProtocolVersion (protocol : list byte) : option (Z * Z) :=
  match cstring protocol with
  | r :: f :: b :: l =>
      if Byte.eqb r "R"%byte && Byte.eqb f "F"%byte && Byte.eqb b "B"%byte
      then
        match scan_03d (skipSpaces l) with
        | Some (major, l1) =>
            match l1 with
            | d :: l2 =>
                if Byte.eqb d "."%byte
                then match scan_03d l2 with
                     | Some (minor, _) => Some (major, minor)
                     | None => None
                     end
                else None
            | [] => None
            end
        | None => None
        end
      else None
  | _ => None
  end.

(** Decimal digits of a natural number, most significant first. *)
Fixpoint decimalDigits (fuel n : nat) (acc : list byte) : list byte :=
  match fuel with
  | 0 => acc
  | S fuel' =>
      let d := byte_of_Z (48 + Z.of_nat (n mod 10)) in
      if n / 10 =? 0 then d :: acc else decimalDigits fuel' (n / 10) (d :: acc)
  end.

(** The [%03d] conversion of [sprintf] for a value that is not
    negative: zero padded to three digits. *)
Definition print_03d (n : nat) : list byte :=
  let ds := decimalDigits (S n) n [] in
  repeat "0"%byte (3 - length ds) ++ ds.

(** [sprintf( protocol, rfbProtocolVersionFormat, major, minor )]. *)
Definition sprintf_rfbProtocolVersion (major minor : nat) : list byte :=
  list_byte_of_string "RFB " ++ print_03d major ++ list_byte_of_string "."
    ++ print_03d minor ++ [x0a].

(** ** The connection state record and the collaborators *)

(** [VncServerClient]: what the handshake reads and writes of the
    client object, through its getters and setters. *)
Record VncServerClient (AuthType : Type) : Type := mkClient {
  protocolState : State;
  authState : AuthState;
  accessControlState : AccessControlState;
  authType : AuthType;
  username : string;
  hostAddress : string
}.

Arguments mkClient {AuthType}.
Arguments protocolState {AuthType}.
Arguments authState {AuthType}.
Arguments accessControlState {AuthType}.
Arguments authType {AuthType}.
Arguments username {AuthType}.
Arguments hostAddress {AuthType}.

(** Modelled from the spec: the classes and constants the handshake is
    compiled against and whose code is not part of the sources at hand
    (RfbVeyonAuth, rfbSecTypeVeyon, sz_rfbClientInitMsg, QVariant,
    VariantArrayMessage, ServerAuthenticationManager,
    ServerAccessControlManager).  They are the interface of the spec's
    sections 4.2 to 4.4:
    - the codec looks at the buffered bytes to tell whether a message
      can be received, [vam_receive] decodes one and gives what stays
      buffered ([None]: the decode failed), [vam_encode] is the byte
      string that [send()] flushes as one unit;
    - [processAuthenticationMessage] consumes one message, yields the
      next authentication phase and the bytes it writes to the
      transport itself;
    - [addClient] enqueues the connection and yields its access-control
      phase. *)
Class Collaborators : Type := {
  AuthType : Type;
  AuthType_eqb : AuthType -> AuthType -> bool;
  AuthType_eqb_eq : forall a b, AuthType_eqb a b = true <-> a = b;
  RfbVeyonAuth_None : AuthType;
  rfbSecTypeVeyon : byte;
  sz_rfbClientInitMsg : nat;
  QVariant : Type;
  QVariant_invalid : QVariant;
  QVariant_fromInt : Z -> QVariant;
  QVariant_fromAuthType : AuthType -> QVariant;
  QVariant_toAuthType : QVariant -> AuthType;
  QVariant_toString : QVariant -> string;
  vam_isReadyForReceive : list byte -> bool;
  vam_receive : list byte -> option (list QVariant) * list byte;
  vam_encode : list QVariant -> list byte;
  ServerAuthenticationManager : Type;
  supportedAuthTypes : ServerAuthenticationManager -> list AuthType;
  processAuthenticationMessage :
    ServerAuthenticationManager -> VncServerClient AuthType -> list QVariant ->
    ServerAuthenticationManager * AuthState * list byte;
  ServerAccessControlManager : Type;
  addClient :
    ServerAccessControlManager -> VncServerClient AuthType ->
    ServerAccessControlManager * AccessControlState
}.

Section Protocol.

Context {C : Collaborators}.

(** The protocol object.  [m_clientId] stands for the address of the
    client object, which is all that [finishAccessControl] compares. *)
Record VncServerProtocol : Type := mkProtocol {
  m_socket : QTcpSocket;
  m_client : VncServerClient AuthType;
  m_clientId : nat;
  m_serverAuthenticationManager : ServerAuthenticationManager;
  m_serverAccessControlManager : ServerAccessControlManager;
  m_serverInitMessage : list byte
}.

Definition withSocket (s : QTcpSocket) (p : VncServerProtocol) : VncServerProtocol :=
  mkProtocol s (m_client p) (m_clientId p) (m_serverAuthenticationManager p)
    (m_serverAccessControlManager p) (m_serverInitMessage p).

Definition withClient (c : VncServerClient AuthType) (p : VncServerProtocol)
  : VncServerProtocol :=
  mkProtocol (m_socket p) c (m_clientId p) (m_serverAuthenticationManager p)
    (m_serverAccessControlManager p) (m_serverInitMessage p).

Definition Method : Type -> Type := StateMonad.state VncServerProtocol.

(** *** Setters of the client object *)

Definition setProtocolState (s : State) (c : VncServerClient AuthType) :=
  mkClient s (authState c) (accessControlState c) (authType c) (username c) (hostAddress c).

Definition setAuthState (a : AuthState) (c : VncServerClient AuthType) :=
  mkClient (protocolState c) a (accessControlState c) (authType c) (username c)
    (hostAddress c).

Definition setAccessControlState (a : AccessControlState) (c : VncServerClient AuthType) :=
  mkClient (protocolState c) (authState c) a (authType c) (username c) (hostAddress c).

Definition setAuthType (t : AuthType) (c : VncServerClient AuthType) :=
  mkClient (protocolState c) (authState c) (accessControlState c) t (username c)
    (hostAddress c).

Definition setUsername (u : string) (c : VncServerClient AuthType) :=
  mkClient (protocolState c) (authState c) (accessControlState c) (authType c) u
    (hostAddress c).

Definition setHostAddress (h : string) (c : VncServerClient AuthType) :=
  mkClient (protocolState c) (authState c) (accessControlState c) (authType c)
    (username c) h.

Definition onClient (f : VncServerClient AuthType -> VncServerClient AuthType)
  : Method unit :=
  p <- get ;; put (withClient (f (m_client p)) p).

(** *** Calls on the socket *)

Definition bytesAvailable : Method nat :=
  p <- get ;; ret (sock_bytesAvailable (m_socket p)).

Definition socketRead (n : nat) : Method (option (list byte)) :=
  p <- get ;;
  let '(r, s) := sock_read n (m_socket p) in
  put (withSocket s p) ;; ret r.

Definition socketWrite (d : list byte) : Method unit :=
  p <- get ;; put (withSocket (sock_write d (m_socket p)) p).

Definition socketClose : Method unit :=
  p <- get ;; put (withSocket (sock_close (m_socket p)) p).

(** *** VariantArrayMessage over the socket *)

Definition VariantArrayMessage : Type := list QVariant.

(** A closed device yields nothing to peek at. *)
Definition isReadyForReceive : Method bool :=
  p <- get ;;
  ret (isOpen (m_socket p) && vam_isReadyForReceive (readBuffer (m_socket p))).

Definition receive : Method (option VariantArrayMessage) :=
  p <- get ;;
  let s := m_socket p in
  if isOpen s
  then let '(r, rest) := vam_receive (readBuffer s) in
       put (withSocket (mkSocket true rest (written s) (peerAddress s)) p) ;; ret r
  else ret None.

(** [message.read()]: the next value of the message; an exhausted
    stream yields an invalid variant. *)
Definition messageRead (m : VariantArrayMessage) : QVariant * VariantArrayMessage :=
  match m with
  | v :: m' => (v, m')
  | [] => (QVariant_invalid, [])
  end.

Definition send (m : VariantArrayMessage) : Method bool :=
  socketWrite (vam_encode m) ;; ret true.

(** *** The methods of VncServerProtocol *)

Definition state : Method State :=
  p <- get ;; ret (protocolState (m_client p)).

Definition setState (s : State) : Method unit :=
  onClient (setProtocolState s).

Definition start : Method unit :=
  st <- state ;;
  if State_eqb st Disconnected
  then
    let protocol := sprintf_rfbProtocolVersion 3 8 in
    socketWrite (firstn sz_rfbProtocolVersionMsg protocol) ;;
    setState Protocol
  else ret tt.

Definition sendSecurityTypes : Method bool :=
  let securityTypeList := [x01; rfbSecTypeVeyon] in
  socketWrite securityTypeList ;;
  ret true.

(** The result of the socket read is not looked at by the source; with
    exactly twelve bytes available the read delivers all of them. *)
Definition readProtocol : Method bool :=
  n <- bytesAvailable ;;
  if n =? sz_rfbProtocolVersionMsg
  then
    r <- socketRead sz_rfbProtocolVersionMsg ;;
    let protocol := match r with Some d => d | None => [] end in
    match sscanf_rfbProtocolVersion protocol with
    | None => socketClose ;; ret false
    | Some _ => setState SecurityInit ;; sendSecurityTypes
    end
  else ret false.

Definition sendAuthenticationTypes : Method bool :=
  p <- get ;;
  let supported := supportedAuthTypes (m_serverAuthenticationManager p) in
  let message :=
    [QVariant_fromInt (Z.of_nat (length supported))]
      ++ map QVariant_fromAuthType supported in
  send message.

Definition receiveSecurityTypeResponse : Method bool :=
  n <- bytesAvailable ;;
  if 1 <=? n
  then
    r <- socketRead 1 ;;
    match r with
    | Some [chosenSecurityType] =>
        if Byte.eqb chosenSecurityType rfbSecTypeVeyon
        then setState AuthenticationTypes ;; sendAuthenticationTypes
        else socketClose ;; ret false
    | _ => socketClose ;; ret false
    end
  else ret false.

Definition processAuthentication (message : VariantArrayMessage) : Method bool :=
  p <- get ;;
  let '(sam, a, out) :=
    processAuthenticationMessage (m_serverAuthenticationManager p) (m_client p) message in
  put (mkProtocol (sock_write out (m_socket p)) (setAuthState a (m_client p))
         (m_clientId p) sam (m_serverAccessControlManager p) (m_serverInitMessage p)) ;;
  match a with
  | AuthFinishedSuccess =>
      let authResult := qToBigEndian32 rfbVncAuthOK in
      socketWrite authResult ;;
      setState AccessControl ;;
      ret true
  | AuthFinishedFail =>
      socketClose ;;
      ret false
  | _ => ret false
  end.

Definition contains (l : list AuthType) (t : AuthType) : bool :=
  existsb (AuthType_eqb t) l.

Definition receiveAuthenticationTypeResponse : Method bool :=
  ready <- isReadyForReceive ;;
  if ready
  then
    r <- receive ;;
    match r with
    | Some message =>
        let '(v, message1) := messageRead message in
        let chosenAuthType := QVariant_toAuthType v in
        p <- get ;;
        if negb (contains (supportedAuthTypes (m_serverAuthenticationManager p))
                   chosenAuthType)
        then socketClose ;; ret false
        else if AuthType_eqb chosenAuthType RfbVeyonAuth_None
        then setState AccessControl ;; ret true
        else
          let '(v', _) := messageRead message1 in
          let username := QVariant_toString v' in
          onClient (setAuthType chosenAuthType) ;;
          onClient (setUsername username) ;;
          onClient (setHostAddress (peerAddress (m_socket p))) ;;
          setState Authenticating ;;
          send [] ;;
          processAuthentication [] ;;
          ret false
    | None => ret false
    end
  else ret false.

Definition receiveAuthenticationMessage : Method bool :=
  ready <- isReadyForReceive ;;
  if ready
  then
    r <- receive ;;
    match r with
    | Some message => processAuthentication message
    | None => ret false
    end
  else ret false.

Definition processAccessControl : Method bool :=
  p <- get ;;
  match accessControlState (m_client p) with
  | AccessControlInit | AccessControlWaiting =>
      let '(acm, a) := addClient (m_serverAccessControlManager p) (m_client p) in
      put (mkProtocol (m_socket p) (setAccessControlState a (m_client p)) (m_clientId p)
             (m_serverAuthenticationManager p) acm (m_serverInitMessage p))
  | _ => ret tt
  end ;;
  p' <- get ;;
  match accessControlState (m_client p') with
  | AccessControlSuccessful => setState FramebufferInit ;; ret true
  | AccessControlPending | AccessControlWaiting => ret false
  | _ => socketClose ;; ret false
  end.

Definition isEmpty (d : list byte) : bool :=
  match d with [] => true | _ => false end.

Definition processFramebufferInit : Method bool :=
  n <- bytesAvailable ;;
  p <- get ;;
  if (sz_rfbClientInitMsg <=? n) && negb (isEmpty (m_serverInitMessage p))
  then
    socketRead sz_rfbClientInitMsg ;;
    socketWrite (m_serverInitMessage p) ;;
    setState Running ;;
    ret true
  else ret false.

Definition read : Method bool :=
  st <- state ;;
  match st with
  | Protocol => readProtocol
  | SecurityInit => receiveSecurityTypeResponse
  | AuthenticationTypes => receiveAuthenticationTypeResponse
  | Authenticating => receiveAuthenticationMessage
  | AccessControl => processAccessControl
  | FramebufferInit => processFramebufferInit
  | Close => socketClose ;; ret false
  | _ => ret false
  end.

(** [while( read() ) { }] with a bound on the number of rounds; the
    result tells whether the loop came to its end within the bound. *)
Fixpoint readLoop (fuel : nat) : Method bool :=
  match fuel with
  | 0 => ret false
  | S fuel' => progress <- read ;; if progress then readLoop fuel' else ret true
  end.

(** The slot connected to [accessControlFinished]. *)
Definition finishAccessControl (fuel : nat) (client : nat) : Method bool :=
  p <- get ;;
  if client =? m_clientId p
  then
    progress <- processAccessControl ;;
    if progress then readLoop fuel else ret true
  else ret true.

(** [n] calls of [read()] in a row, with their results. *)
Fixpoint reads (n : nat) : Method (list bool) :=
  match n with
  | 0 => ret []
  | S n' => b <- read ;; bs <- reads n' ;; ret (b :: bs)
  end.

End Protocol.

(** ** A concrete set of collaborators

    The theorems below hold for every implementation of the
    collaborators.  To run the handshake on concrete input, this module
    fixes one: authentication types are the integers of the enumeration,
    a message is framed by a four-byte big-endian length, the host
    white list holds one address, the logon password is fixed, and the
    access-control manager asks the user for logon connections only. *)
Module Fixture.

Inductive Variant : Type :=
| VInvalid
| VInt (z : Z)
| VString (s : string).

Definition authInvalid : Z := 0.
Definition authNone : Z := 1.
Definition authHostWhiteList : Z := 2.
Definition authLogon : Z := 4.

Definition toAuthType (v : Variant) : Z :=
  match v with VInt z => z | _ => authInvalid end.

Definition toString (v : Variant) : string :=
  match v with VString s => s | _ => EmptyString end.

Definition fromBigEndian (bs : list byte) : nat :=
  fold_left (fun acc b => acc * 256 + N.to_nat (Byte.to_N b)) bs 0.

Definition encodeItem (v : Variant) : list byte :=
  match v with
  | VInvalid => [x00]
  | VInt z => [x01; byte_of_Z z]
  | VString s => x02 :: byte_of_Z (Z.of_nat (String.length s)) :: list_byte_of_string s
  end.

Fixpoint decodeItems (fuel : nat) (d : list byte) : option (list Variant) :=
  match fuel, d with
  | _, [] => Some []
  | 0, _ :: _ => None
  | S fuel', t :: d' =>
      if Byte.eqb t x00 then option_map (cons VInvalid) (decodeItems fuel' d')
      else if Byte.eqb t x01 then
        match d' with
        | v :: d'' =>
            option_map (cons (VInt (Z.of_N (Byte.to_N v)))) (decodeItems fuel' d'')
        | [] => None
        end
      else if Byte.eqb t x02 then
        match d' with
        | n :: d'' =>
            let k := N.to_nat (Byte.to_N n) in
            if length d'' <? k then None
            else option_map (cons (VString (string_of_list_byte (firstn k d''))))
                   (decodeItems fuel' (skipn k d''))
        | [] => None
        end
      else None
  end.

Definition encode (m : list Variant) : list byte :=
  let payload := flat_map encodeItem m in
  qToBigEndian32 (Z.of_nat (length payload)) ++ payload.

Definition isReady (buf : list byte) : bool :=
  (4 <=? length buf) && (4 + fromBigEndian (firstn 4 buf) <=? length buf).

Definition decode (buf : list byte) : option (list Variant) * list byte :=
  if length buf <? 4 then (None, [])
  else
    let n := fromBigEndian (firstn 4 buf) in
    let data := firstn n (skipn 4 buf) in
    if length data =? n
    then (decodeItems (length data) data, skipn n (skipn 4 buf))
    else (None, skipn n (skipn 4 buf)).

(** The authentication manager: its state is the list of types it
    advertises.  White-listed hosts are accepted at the first step;
    logon sends a challenge and checks the password that comes back. *)
Definition processAuth (m : list Z) (c : VncServerClient Z) (msg : list Variant)
  : list Z * AuthState * list byte :=
  if Z.eqb (authType c) authHostWhiteList then
    match authState c with
    | AuthNotStarted =>
        if String.eqb (hostAddress c) "127.0.0.1" then (m, AuthFinishedSuccess, [])
        else (m, AuthFinishedFail, [])
    | a => (m, a, [])
    end
  else if Z.eqb (authType c) authLogon then
    match authState c with
    | AuthNotStarted => (m, AuthInProgress, encode [VInt 7])
    | AuthInProgress =>
        match msg with
        | [VString pw] =>
            if String.eqb pw "secret" then (m, AuthFinishedSuccess, [])
            else (m, AuthFinishedFail, [])
        | [] => (m, AuthInProgress, [])
        | _ => (m, AuthFinishedFail, [])
        end
    | a => (m, a, [])
    end
  else (m, AuthFinishedFail, []).

(** The access-control manager: its state counts the connections that
    wait for the user.  A connection that is queued stays as it is when
    it is added again. *)
Definition enqueue (q : nat) (c : VncServerClient Z) : nat * AccessControlState :=
  match accessControlState c with
  | AccessControlInit =>
      if Z.eqb (authType c) authLogon
      then (S q, if q =? 0 then AccessControlPending else AccessControlWaiting)
      else if Z.eqb (authType c) authHostWhiteList || Z.eqb (authType c) authNone
      then (q, AccessControlSuccessful)
      else (q, AccessControlFailed)
  | a => (q, a)
  end.

Definition collaborators : Collaborators := {|
  AuthType := Z;
  AuthType_eqb := Z.eqb;
  AuthType_eqb_eq := Z.eqb_eq;
  RfbVeyonAuth_None := authNone;
  rfbSecTypeVeyon := x28;
  sz_rfbClientInitMsg := 1;
  QVariant := Variant;
  QVariant_invalid := VInvalid;
  QVariant_fromInt := VInt;
  QVariant_fromAuthType := VInt;
  QVariant_toAuthType := toAuthType;
  QVariant_toString := toString;
  vam_isReadyForReceive := isReady;
  vam_receive := decode;
  vam_encode := encode;
  ServerAuthenticationManager := list Z;
  supportedAuthTypes := fun m => m;
  processAuthenticationMessage := processAuth;
  ServerAccessControlManager := nat;
  addClient := enqueue
|}.

Definition Connection : Type := @VncServerProtocol collaborators.

Definition freshClient (phase : State) : VncServerClient Z :=
  mkClient phase AuthNotStarted AccessControlInit authInvalid EmptyString EmptyString.

(** A connection in [phase] whose peer, at address [peer], has sent the
    bytes [rx]; [types] are the advertised authentication types. *)
Definition connection (phase : State) (types : list Z) (peer : string) (rx : list byte)
  : Connection :=
  @mkProtocol collaborators (mkSocket true rx [] peer) (freshClient phase) 1 types 0
    (list_byte_of_string "server-init").

Definition run {A : Type} (m : @Method collaborators A) (p : Connection) : A * Connection :=
  runState m p.

(** The whole handshake of a logon connection, one transport event per
    client message. *)
Definition clientBanner : list byte := sprintf_rfbProtocolVersion 3 8.
Definition chooseLogon : list byte := encode [VInt authLogon; VString "alice"].
Definition chooseNone : list byte := encode [VInt authNone].
Definition chooseHostWhiteList : list byte := encode [VInt authHostWhiteList; VString "bob"].
Definition password : list byte := encode [VString "secret"].

Definition arrive (d : list byte) (p : Connection) : Connection :=
  let s := m_socket p in
  if isOpen s
  then withSocket (mkSocket true (readBuffer s ++ d) (written s) (peerAddress s)) p
  else p.

End Fixture.


(** ** Vocabulary of the statements *)

Section Statements.

Context {C : Collaborators}.

Implicit Types p : VncServerProtocol.

(** The phase of a protocol object. *)
Definition phase p : State := protocolState (m_client p).

Definition undecided (a : AccessControlState) : Prop :=
  a = AccessControlPending \/ a = AccessControlWaiting.

(** The phases that wait for a fixed number of bytes. *)
Definition requiredBytes (s : State) : option nat :=
  match s with
  | Protocol => Some sz_rfbProtocolVersionMsg
  | SecurityInit => Some 1
  | FramebufferInit => Some sz_rfbClientInitMsg
  | _ => None
  end.

(** What the source checks besides the byte count before it moves on:
    the banner parses, the security type is the advertised one, the
    server-init message is there. *)
Definition acceptableInput p : Prop :=
  match phase p with
  | Protocol =>
      sscanf_rfbProtocolVersion
        (firstn sz_rfbProtocolVersionMsg (readBuffer (m_socket p))) <> None
  | SecurityInit => hd_error (readBuffer (m_socket p)) = Some rfbSecTypeVeyon
  | FramebufferInit => m_serverInitMessage p <> []
  | _ => True
  end.

(** The authentication type that a received message selects. *)
Definition chosenAuthType (message : VariantArrayMessage) : AuthType :=
  QVariant_toAuthType (fst (messageRead message)).

(** The client record at the moment the authentication collaborator is
    first called: type, user name and peer address are set and the phase
    is Authenticating. *)
Definition clientAtAuthStart p (message : VariantArrayMessage) : VncServerClient AuthType :=
  setProtocolState Authenticating
    (setHostAddress (peerAddress (m_socket p))
       (setUsername (QVariant_toString (fst (messageRead (snd (messageRead message)))))
          (setAuthType (chosenAuthType message) (m_client p)))).

(** A complete message is buffered and decodes to [message]. *)
Definition messageAvailable p (message : VariantArrayMessage) : Prop :=
  isOpen (m_socket p) = true
  /\ vam_isReadyForReceive (readBuffer (m_socket p)) = true
  /\ fst (vam_receive (readBuffer (m_socket p))) = Some message.

(** The access-control phase of the client once [processAccessControl]
    has, where the source does so, added the client to the manager. *)
Definition decisionAfterEnqueue p : AccessControlState :=
  match accessControlState (m_client p) with
  | AccessControlInit | AccessControlWaiting =>
      snd (addClient (m_serverAccessControlManager p) (m_client p))
  | a => a
  end.

(** The fatal conditions of the handshake.  Authentication can fail in
    two places: on a message of the Authenticating phase, and at the
    first call of the collaborator, which the AuthenticationTypes phase
    makes itself. *)
Inductive FatalCondition : Type :=
| MalformedBanner
| UnsupportedSecurityType
| UnsupportedAuthType
| AuthenticationFailed
| AuthenticationFailedAtStart
| AccessDenied.

Definition detects (k : FatalCondition) p : Prop :=
  match k with
  | MalformedBanner =>
      phase p = Protocol
      /\ sock_bytesAvailable (m_socket p) = sz_rfbProtocolVersionMsg
      /\ sscanf_rfbProtocolVersion
           (firstn sz_rfbProtocolVersionMsg (readBuffer (m_socket p))) = None
  | UnsupportedSecurityType =>
      phase p = SecurityInit
      /\ isOpen (m_socket p) = true
      /\ exists b rest, readBuffer (m_socket p) = b :: rest /\ b <> rfbSecTypeVeyon
  | UnsupportedAuthType =>
      phase p = AuthenticationTypes
      /\ exists message,
           messageAvailable p message
           /\ ~ In (chosenAuthType message)
                  (supportedAuthTypes (m_serverAuthenticationManager p))
  | AuthenticationFailed =>
      phase p = Authenticating
      /\ exists message,
           messageAvailable p message
           /\ snd (fst (processAuthenticationMessage (m_serverAuthenticationManager p)
                          (m_client p) message)) = AuthFinishedFail
  | AuthenticationFailedAtStart =>
      phase p = AuthenticationTypes
      /\ exists message,
           messageAvailable p message
           /\ In (chosenAuthType message)
                (supportedAuthTypes (m_serverAuthenticationManager p))
           /\ chosenAuthType message <> RfbVeyonAuth_None
           /\ snd (fst (processAuthenticationMessage (m_serverAuthenticationManager p)
                          (clientAtAuthStart p message) [])) = AuthFinishedFail
  | AccessDenied =>
      phase p = AccessControl
      /\ (decisionAfterEnqueue p = AccessControlInit
          \/ decisionAfterEnqueue p = AccessControlFailed)
  end.

(** *** The claims that the code does not bear out, as they are worded *)


(** With exactly the required number of bytes buffered, [read()]
    returns true. *)
Definition exactBytesGiveProgress p : Prop :=
  forall n, requiredBytes (phase p) = Some n ->
            sock_bytesAvailable (m_socket p) = n ->
            fst (runState read p) = true.

(** After a [read()] that took the choice of the type None, the client
    record holds the peer address. *)
Definition noneCapturesPeerAddress p : Prop :=
  forall message,
    phase p = AuthenticationTypes ->
    messageAvailable p message ->
    chosenAuthType message = RfbVeyonAuth_None ->
    hostAddress (m_client (snd (runState read p))) = peerAddress (m_socket p).


(** At this call of [read()] the collaborator does not change the
    sub-phase: if the client is Waiting, and so is added to the manager
    again, the manager leaves it Waiting.  (A Pending client is not
    added, so nothing is asked of the manager.) *)
Definition subPhaseUnchanged p : Prop :=
  accessControlState (m_client p) = AccessControlWaiting ->
  snd (addClient (m_serverAccessControlManager p) (m_client p)) = AccessControlWaiting.

(** The same at each of [n] calls of [read()] in a row, from [p] on. *)
Fixpoint subPhaseUnchangedFor (n : nat) p : Prop :=
  match n with
  | 0 => True
  | S n' => subPhaseUnchanged p /\ subPhaseUnchangedFor n' (snd (runState read p))
  end.

(** A [read()] that closes the socket leaves the phase where it was. *)
Definition closingReadKeepsPhase p : Prop :=
  isOpen (m_socket p) = true ->
  isOpen (m_socket (snd (runState read p))) = false ->
  phase (snd (runState read p)) = phase p.

End Statements.

(** * The theorems at concrete connections *)

(** The connections below are those of [Fixture]: the peer is at
    10.0.0.5, which is not on the white list. *)

Definition bannerAndMore : Fixture.Connection :=
  Fixture.connection Protocol [Fixture.authLogon] "10.0.0.5"
    (Fixture.clientBanner ++ [x28]).

Definition bannerOnly : Fixture.Connection :=
  Fixture.connection Protocol [Fixture.authLogon] "10.0.0.5" Fixture.clientBanner.

Definition httpRequest : Fixture.Connection :=
  Fixture.connection Protocol [Fixture.authLogon] "10.0.0.5"
    (list_byte_of_string "GET / HTTP/1").

Definition legacyVncAuth : Fixture.Connection :=
  Fixture.connection SecurityInit [Fixture.authLogon] "10.0.0.5" [x02; x07].

Definition logonChosen : Fixture.Connection :=
  Fixture.connection AuthenticationTypes [Fixture.authLogon] "10.0.0.5"
    Fixture.chooseLogon.

Definition noneChosen : Fixture.Connection :=
  Fixture.connection AuthenticationTypes [Fixture.authNone; Fixture.authLogon]
    "10.0.0.5" Fixture.chooseNone.

Definition strangerChosen : Fixture.Connection :=
  Fixture.connection AuthenticationTypes [Fixture.authHostWhiteList] "10.0.0.5"
    Fixture.chooseHostWhiteList.

(** A logon connection that has been sent the challenge and whose
    password has arrived. *)
Definition passwordSent : Fixture.Connection :=
  @mkProtocol Fixture.collaborators
    (mkSocket true Fixture.password [] "10.0.0.5")
    (mkClient Authenticating AuthInProgress AccessControlInit Fixture.authLogon
       "alice" "10.0.0.5")
    1 [Fixture.authLogon] 0 (list_byte_of_string "server-init").

(** A logon connection in the AccessControl phase with the given
    sub-phase, the client-init byte already buffered. *)
Definition atAccessControl (a : AccessControlState) : Fixture.Connection :=
  @mkProtocol Fixture.collaborators
    (mkSocket true [x01] [] "10.0.0.5")
    (mkClient AccessControl AuthFinishedSuccess a Fixture.authLogon "alice" "10.0.0.5")
    1 [Fixture.authLogon] 1 (list_byte_of_string "server-init").

Definition freshConnection : Fixture.Connection :=
  Fixture.connection Disconnected [Fixture.authLogon] "10.0.0.5" [].

(** * The rest of the class *)

Section Construction.

Context {C : Collaborators}.

Implicit Types p : VncServerProtocol.

(** The constructor: the members are taken as given, the server-init
    message starts empty, and the access-control state of the client is
    reset to Init.  (The signal connection is what makes
    [finishAccessControl] run on a notification.) *)
Definition construct (socket : QTcpSocket) (client : VncServerClient AuthType)
    (clientId : nat) (sam : ServerAuthenticationManager)
    (acm : ServerAccessControlManager) : VncServerProtocol :=
  mkProtocol socket (setAccessControlState AccessControlInit client) clientId sam acm [].

(** What the negotiation records about the peer. *)
Definition identity p : AuthType * string * string :=
  (authType (m_client p), username (m_client p), hostAddress (m_client p)).

(** The phases in which [read()] waits for a variant message. *)
Definition awaitsMessage (s : State) : bool :=
  match s with
  | AuthenticationTypes | Authenticating => true
  | _ => false
  end.

(** The phases before the access-control decision, in which every step
    needs bytes from the socket. *)
Definition beforeAccessControl (s : State) : bool :=
  match s with
  | Protocol | SecurityInit | AuthenticationTypes | Authenticating => true
  | _ => false
  end.

(** The decisions on which [processAccessControl] goes on, and those on
    which it keeps the socket open. *)
Definition grants (a : AccessControlState) : bool :=
  match a with AccessControlSuccessful => true | _ => false end.

Definition keepsOpen (a : AccessControlState) : bool :=
  match a with
  | AccessControlSuccessful | AccessControlPending | AccessControlWaiting => true
  | _ => false
  end.

End Construction.

(** [l] is the three decimal digits of [n]. *)
Definition threeDigitsOf (n : nat) (l : list byte) : bool :=
  match l with
  | [a; b; c] =>
      isdigit a && isdigit b && isdigit c
      && Z.eqb (10 * (10 * (10 * 0 + digitValue a) + digitValue b) + digitValue c)
           (Z.of_nat n)
  | _ => false
  end.


(** Further connections of [Fixture], for the properties of the rest of
    the class. *)

(** A notification with the decision Successful finds this connection
    still in the Authenticating phase. *)
Definition grantedEarly : Fixture.Connection :=
  @mkProtocol Fixture.collaborators
    (mkSocket true [] [] "10.0.0.5")
    (mkClient Authenticating AuthInProgress AccessControlSuccessful Fixture.authLogon
       "alice" "10.0.0.5")
    1 [Fixture.authLogon] 0 (list_byte_of_string "server-init").

Definition closedEarly : Fixture.Connection :=
  @mkProtocol Fixture.collaborators
    (mkSocket false [] [x01; x28] "10.0.0.5")
    (Fixture.freshClient SecurityInit)
    1 [Fixture.authLogon] 0 (list_byte_of_string "server-init").

(** A protocol object right after its construction, on a client record
    that is in the AccessControl phase and carries a stale decision. *)
Definition staleClient : VncServerClient Z :=
  mkClient AccessControl AuthFinishedSuccess AccessControlSuccessful Fixture.authLogon
    "alice" "10.0.0.5".

Definition justConstructed : Fixture.Connection :=
  @construct Fixture.collaborators (mkSocket true [x01] [] "10.0.0.5") staleClient 1
    [Fixture.authLogon] 0.

Definition securityChosen : Fixture.Connection :=
  Fixture.connection SecurityInit [Fixture.authLogon; Fixture.authHostWhiteList]
    "10.0.0.5" [x28; x00; x00].

Definition clientInitAndMore : Fixture.Connection :=
  Fixture.connection FramebufferInit [Fixture.authLogon] "10.0.0.5" [x01; x03; x00].

(** A frame of one byte that is no value of the codec. *)
Definition garbledMessage : Fixture.Connection :=
  @mkProtocol Fixture.collaborators
    (mkSocket true [x00; x00; x00; x01; xff; x07] [] "10.0.0.5")
    (mkClient Authenticating AuthInProgress AccessControlInit Fixture.authLogon
       "alice" "10.0.0.5")
    1 [Fixture.authLogon] 0 (list_byte_of_string "server-init").

Definition logonPipelined : Fixture.Connection :=
  Fixture.connection AuthenticationTypes [Fixture.authLogon] "10.0.0.5"
    (Fixture.chooseLogon ++ Fixture.password).

(** * Running the model *)

Example banner_3_8 :
  sprintf_rfbProtocolVersion 3 8 = list_byte_of_string "RFB 003.008" ++ [x0a].
Proof. reflexivity. Qed.

Example banner_3_8_length :
  length (sprintf_rfbProtocolVersion 3 8) = sz_rfbProtocolVersionMsg.
Proof. reflexivity. Qed.

Example sscanf_banner_3_8 :
  sscanf_rfbProtocolVersion (sprintf_rfbProtocolVersion 3 8) = Some (3, 8)%Z.
Proof. reflexivity. Qed.

Example sscanf_garbage :
  sscanf_rfbProtocolVersion (list_byte_of_string "GET / HTTP/1") = None.
Proof. reflexivity. Qed.

Example qToBigEndian32_ok : qToBigEndian32 rfbVncAuthOK = [x00; x00; x00; x00].
Proof. reflexivity. Qed.

Example qToBigEndian32_order : qToBigEndian32 258 = [x00; x00; x01; x02].
Proof. reflexivity. Qed.

Example fixture_roundtrip :
  Fixture.decode (Fixture.chooseLogon)
  = (Some [Fixture.VInt 4; Fixture.VString "alice"], []).
Proof. reflexivity. Qed.

Example fixture_handshake_to_accessControl :
  let p0 := Fixture.connection Disconnected [Fixture.authLogon] "10.0.0.5" [] in
  let p1 := Fixture.arrive Fixture.clientBanner (snd (Fixture.run start p0)) in
  let p2 := Fixture.arrive [x28] (snd (Fixture.run (readLoop 9) p1)) in
  let p3 := Fixture.arrive Fixture.chooseLogon (snd (Fixture.run (readLoop 9) p2)) in
  let p4 := Fixture.arrive Fixture.password (snd (Fixture.run (readLoop 9) p3)) in
  let p5 := snd (Fixture.run (readLoop 9) p4) in
  protocolState (m_client p5) = AccessControl
  /\ accessControlState (m_client p5) = AccessControlPending
  /\ username (m_client p5) = "alice"%string
  /\ hostAddress (m_client p5) = "10.0.0.5"%string
  /\ isOpen (m_socket p5) = true.
Proof. vm_compute. repeat split. Qed.

(** The handshake of the spec's scenario from end to end: the password
    is accepted, the user then grants access while the client-init byte
    is already buffered, and the notification takes the connection to
    Running.  The output is the banner, the security types, the
    authentication types, the acknowledgement, the challenge, the
    success code and the server-init message, in this order. *)
Example fixture_handshake_to_Running :
  let p0 := Fixture.connection Disconnected [Fixture.authLogon] "10.0.0.5" [] in
  let p1 := Fixture.arrive Fixture.clientBanner (snd (Fixture.run start p0)) in
  let p2 := Fixture.arrive [x28] (snd (Fixture.run (readLoop 9) p1)) in
  let p3 := Fixture.arrive Fixture.chooseLogon (snd (Fixture.run (readLoop 9) p2)) in
  let p4 := Fixture.arrive Fixture.password (snd (Fixture.run (readLoop 9) p3)) in
  let p5 := Fixture.arrive [x00] (snd (Fixture.run (readLoop 9) p4)) in
  let p6 := snd (Fixture.run (readLoop 9) p5) in
  let p7 := withClient (setAccessControlState AccessControlSuccessful (m_client p6)) p6 in
  let p8 := snd (Fixture.run (finishAccessControl 9 1) p7) in
  phase p6 = AccessControl
  /\ phase p8 = Running
  /\ readBuffer (m_socket p8) = []
  /\ written (m_socket p8)
     = Fixture.clientBanner ++ [x01; x28]
       ++ Fixture.encode [Fixture.VInt 1; Fixture.VInt Fixture.authLogon]
       ++ Fixture.encode [] ++ Fixture.encode [Fixture.VInt 7]
       ++ [x00; x00; x00; x00] ++ list_byte_of_string "server-init".
Proof. vm_compute. repeat split. Qed.

(** * Properties of the handshake *)

Section Properties.

Context {C : Collaborators}.

Implicit Types p : VncServerProtocol.

Lemma Byte_eqb_neq (a b : byte) : a <> b -> Byte.eqb a b = false.
Proof.
  intros H. destruct (Byte.eqb a b) eqn:E; [|reflexivity].
  apply Byte.byte_dec_bl in E. contradiction.
Qed.

Lemma contains_In (l : list AuthType) (t : AuthType) : contains l t = true <-> In t l.
Proof.
  unfold contains. rewrite existsb_exists. split.
  - intros [x [Hin Heq]]. apply AuthType_eqb_eq in Heq. subst. exact Hin.
  - intros Hin. exists t. split; [exact Hin | apply AuthType_eqb_eq; reflexivity].
Qed.

(** Take a protocol object apart into its fields, so that the methods
    compute on it. *)
Ltac expose p :=
  let o := fresh "o" in let rb := fresh "rb" in let w := fresh "w" in
  let pa := fresh "pa" in
  destruct p as [[o rb w pa] [? ? ? ? ? ?] ? ? ? ?];
  unfold phase in *; cbn in *; subst.

(** [read()] dispatches on the phase. *)
Lemma read_dispatch p :
  runState read p =
  match phase p with
  | Protocol => runState readProtocol p
  | SecurityInit => runState receiveSecurityTypeResponse p
  | AuthenticationTypes => runState receiveAuthenticationTypeResponse p
  | Authenticating => runState receiveAuthenticationMessage p
  | AccessControl => runState processAccessControl p
  | FramebufferInit => runState processFramebufferInit p
  | Close => (false, withSocket (sock_close (m_socket p)) p)
  | _ => (false, p)
  end.
Proof.
  unfold read, state, phase. cbn. destruct (protocolState (m_client p)); reflexivity.
Qed.

Lemma reads_S (n : nat) p :
  runState (reads (S n)) p =
  let (b, p1) := runState read p in
  let (bs, p2) := runState (reads n) p1 in (b :: bs, p2).
Proof.
  change (runState (reads (S n)) p)
    with (let (b, p1) := runState read p in
          runState (bs <- reads n ;; ret (b :: bs)) p1).
  destruct (runState read p) as [b p1].
  change (runState (bs <- reads n ;; ret (b :: bs)) p1)
    with (let (bs, p2) := runState (reads n) p1 in (b :: bs, p2)).
  reflexivity.
Qed.

Lemma readLoop_S (fuel : nat) p :
  runState (readLoop (S fuel)) p =
  let (b, p1) := runState read p in
  if b then runState (readLoop fuel) p1 else (true, p1).
Proof.
  change (runState (readLoop (S fuel)) p)
    with (let (b, p1) := runState read p in
          runState (if b then readLoop fuel else ret true) p1).
  destruct (runState read p) as [[|] p1]; reflexivity.
Qed.

(** Unfold the method that [read()] dispatches to, with the socket
    calls, on an exposed protocol object. *)
Ltac run_methods :=
  unfold readProtocol, receiveSecurityTypeResponse, receiveAuthenticationTypeResponse,
    receiveAuthenticationMessage, processAccessControl, processFramebufferInit;
  cbn;
  unfold sock_bytesAvailable, sock_read, sock_write, sock_close; cbn.

(** Case analysis on what a result branches on, innermost first. *)
Ltac split_inner :=
  repeat match goal with
    | |- context [match ?x with _ => _ end] =>
        lazymatch x with
        | context [match _ with _ => _ end] => fail
        | _ => destruct x eqn:?; cbn
        end
    end.

(** Case analysis over one [read()] call: the phase, whether the socket
    is open, and whatever the method branches on. *)
Ltac read_cases p :=
  rewrite read_dispatch;
  let Hs := fresh "Hs" in
  destruct (phase p) eqn:Hs; expose p;
  match goal with o : bool |- _ => destruct o end;
  run_methods; split_inner; cbn.

(** ** The Protocol phase *)

(** C10.  In the Protocol phase, with strictly more bytes buffered than
    the version message is long, [read()] returns false and leaves the
    protocol object, the read buffer included, as it was; calling it
    again, any number of times, gives the same. *)
Theorem readProtocol_surplus_no_progress p :
  phase p = Protocol ->
  sz_rfbProtocolVersionMsg < sock_bytesAvailable (m_socket p) ->
  runState read p = (false, p)
  /\ forall n, runState (reads n) p = (repeat false n, p).
Proof.
  intros Hs Hn.
  assert (Hr : runState read p = (false, p)).
  { rewrite read_dispatch, Hs. unfold readProtocol, bytesAvailable. cbn.
    destruct (Nat.eqb_spec (sock_bytesAvailable (m_socket p)) sz_rfbProtocolVersionMsg);
      [lia | reflexivity]. }
  split; [exact Hr|].
  induction n as [|n IH]; [reflexivity|].
  rewrite reads_S, Hr, IH. reflexivity.
Qed.

(** ** start() *)

(** C9.  In the Disconnected phase [start()] writes the twelve bytes of
    the version banner once and moves to Protocol; in every other phase
    it changes nothing; so a second call never changes anything. *)
Theorem start_once p :
  (phase p = Disconnected -> isOpen (m_socket p) = true ->
   exists p',
     runState start p = (tt, p')
     /\ phase p' = Protocol
     /\ written (m_socket p')
        = written (m_socket p) ++ list_byte_of_string "RFB 003.008" ++ [x0a]
     /\ readBuffer (m_socket p') = readBuffer (m_socket p)
     /\ isOpen (m_socket p') = true)
  /\ (phase p <> Disconnected -> runState start p = (tt, p))
  /\ runState start (snd (runState start p)) = (tt, snd (runState start p)).
Proof.
  unfold phase. split; [|split].
  - intros Hs Ho. eexists. unfold start, state. cbn. rewrite Hs. cbn.
    split; [reflexivity|]. cbn. unfold sock_write. rewrite Ho. cbn.
    repeat split.
  - intros Hs. unfold start, state. cbn.
    destruct (protocolState (m_client p)); cbn; try reflexivity. congruence.
  - unfold start, state. cbn.
    destruct (protocolState (m_client p)) eqn:Hs; cbn; rewrite ?Hs; reflexivity.
Qed.

(** ** The AccessControl phase *)

Lemma read_undecided_step p :
  phase p = AccessControl ->
  undecided (accessControlState (m_client p)) ->
  subPhaseUnchanged p ->
  exists p',
    runState read p = (false, p')
    /\ m_socket p' = m_socket p
    /\ phase p' = AccessControl
    /\ accessControlState (m_client p') = accessControlState (m_client p).
Proof.
  intros Hs [Ha | Ha] Hq; rewrite read_dispatch, Hs; unfold subPhaseUnchanged in Hq;
    unfold processAccessControl; cbn; rewrite Ha.
  - cbn. rewrite Ha. eexists. split; [reflexivity|]. unfold phase. auto.
  - specialize (Hq Ha).
    destruct (addClient (m_serverAccessControlManager p) (m_client p)) as [acm a].
    cbn in Hq. subst a. cbn. eexists. split; [reflexivity|]. unfold phase. cbn. auto.
Qed.

(** C4.  In the AccessControl phase with the sub-phase Pending or
    Waiting, [read()] returns false, leaves the socket untouched (so
    not closed) and the phase at AccessControl, provided that at this
    call the collaborator does not change the sub-phase; the sub-phase
    is then as before, so the same holds for any number of calls in a
    row at each of which the collaborator does not change it.  Nothing
    is assumed of the collaborator at other calls, and nothing at all
    for a Pending connection, for which it is not called. *)
Theorem read_undecided_accessControl_stalls (n : nat) p :
  phase p = AccessControl ->
  undecided (accessControlState (m_client p)) ->
  subPhaseUnchangedFor n p ->
  exists p',
    runState (reads n) p = (repeat false n, p')
    /\ m_socket p' = m_socket p
    /\ phase p' = AccessControl
    /\ accessControlState (m_client p') = accessControlState (m_client p).
Proof.
  revert p. induction n as [|n IH]; intros p Hs Ha Hq.
  - exists p. cbn. auto.
  - destruct Hq as [Hq Hrest].
    destruct (read_undecided_step p Hs Ha Hq) as [p1 [Hr [Hsock [Hph Hacs]]]].
    rewrite Hr in Hrest. cbn [snd] in Hrest.
    destruct (IH p1 Hph) as [p2 [Hr2 [Hsock2 [Hph2 Hacs2]]]];
      [rewrite Hacs; exact Ha | exact Hrest |].
    exists p2. split.
    + rewrite reads_S, Hr, Hr2. reflexivity.
    + rewrite Hsock2, Hsock, Hacs2, Hacs. auto.
Qed.

(** ** The SecurityInit phase *)

Lemma read_closed_idle p :
  isOpen (m_socket p) = false ->
  readBuffer (m_socket p) = [] ->
  phase p = SecurityInit ->
  runState read p = (false, p).
Proof.
  intros Ho Hb Hs. rewrite read_dispatch, Hs.
  unfold receiveSecurityTypeResponse, bytesAvailable, sock_bytesAvailable. cbn.
  rewrite Ho. reflexivity.
Qed.

Lemma read_wrong_security_type p (b : byte) (rest : list byte) :
  phase p = SecurityInit ->
  isOpen (m_socket p) = true ->
  readBuffer (m_socket p) = b :: rest ->
  b <> rfbSecTypeVeyon ->
  runState read p = (false, withSocket (sock_close (m_socket p)) p).
Proof.
  intros Hs Ho Hb Hne. rewrite read_dispatch, Hs. expose p.
  unfold receiveSecurityTypeResponse. cbn.
  rewrite (Byte_eqb_neq _ _ Hne). reflexivity.
Qed.

(** C6.  In the SecurityInit phase, a first byte other than the
    advertised security type makes [read()] close the socket; every
    later [read()] on the connection returns false and changes nothing,
    so it consumes no byte. *)
Theorem wrong_security_type_closes p (b : byte) (rest : list byte) :
  phase p = SecurityInit ->
  isOpen (m_socket p) = true ->
  readBuffer (m_socket p) = b :: rest ->
  b <> rfbSecTypeVeyon ->
  exists p',
    runState read p = (false, p')
    /\ isOpen (m_socket p') = false
    /\ written (m_socket p') = written (m_socket p)
    /\ phase p' = SecurityInit
    /\ forall n, runState (reads n) p' = (repeat false n, p').
Proof.
  intros Hs Ho Hb Hne.
  eexists. split; [exact (read_wrong_security_type p b rest Hs Ho Hb Hne)|].
  cbn. repeat split; [exact Hs|].
  induction n as [|n IH]; [reflexivity|].
  rewrite reads_S, read_closed_idle by (cbn; auto).
  rewrite IH. reflexivity.
Qed.

(** ** The Authenticating phase *)

(** C7.  In the Authenticating phase, once a complete message has been
    received and handed to the authentication collaborator: on
    FinishedSuccess the four bytes of the big-endian success code follow
    whatever the collaborator wrote, the phase becomes AccessControl and
    [read()] returns true; on FinishedFail the socket is closed and
    [read()] returns false; otherwise [read()] returns false, the socket
    stays open and the phase stays Authenticating. *)
Theorem authentication_message_outcome p (message : VariantArrayMessage)
    (rest out : list byte) (sam : ServerAuthenticationManager) (a : AuthState) :
  phase p = Authenticating ->
  isOpen (m_socket p) = true ->
  vam_isReadyForReceive (readBuffer (m_socket p)) = true ->
  vam_receive (readBuffer (m_socket p)) = (Some message, rest) ->
  processAuthenticationMessage (m_serverAuthenticationManager p) (m_client p) message
    = (sam, a, out) ->
  exists p',
    runState read p = (match a with AuthFinishedSuccess => true | _ => false end, p')
    /\ authState (m_client p') = a
    /\ readBuffer (m_socket p') = match a with AuthFinishedFail => [] | _ => rest end
    /\ match a with
       | AuthFinishedSuccess =>
           phase p' = AccessControl
           /\ isOpen (m_socket p') = true
           /\ written (m_socket p')
              = (written (m_socket p) ++ out) ++ [x00; x00; x00; x00]
           /\ qToBigEndian32 rfbVncAuthOK = [x00; x00; x00; x00]
       | AuthFinishedFail =>
           phase p' = Authenticating
           /\ isOpen (m_socket p') = false
           /\ written (m_socket p') = written (m_socket p) ++ out
       | _ =>
           phase p' = Authenticating
           /\ isOpen (m_socket p') = true
           /\ written (m_socket p') = written (m_socket p) ++ out
       end.
Proof.
  intros Hs Ho Hready Hrecv Hauth.
  rewrite read_dispatch, Hs. expose p.
  unfold receiveAuthenticationMessage. cbn. rewrite Hready. cbn. rewrite Hrecv. cbn.
  rewrite Hauth. cbn.
  destruct a; cbn; eexists; (split; [reflexivity|]); cbn; repeat split.
Qed.

(** ** The FramebufferInit phase and the access-control notification *)

Lemma processFramebufferInit_ready p :
  isOpen (m_socket p) = true ->
  sz_rfbClientInitMsg <= length (readBuffer (m_socket p)) ->
  m_serverInitMessage p <> [] ->
  runState processFramebufferInit p
  = (true,
     withClient (setProtocolState Running (m_client p))
       (withSocket
          (mkSocket true (skipn sz_rfbClientInitMsg (readBuffer (m_socket p)))
             (written (m_socket p) ++ m_serverInitMessage p)
             (peerAddress (m_socket p))) p)).
Proof.
  intros Ho Hn Hi. expose p. unfold processFramebufferInit. cbn.
  destruct (Nat.leb_spec sz_rfbClientInitMsg (length rb)); [|lia].
  destruct m_serverInitMessage0; [congruence|]. reflexivity.
Qed.


(** ** Progress and the phase order *)

(** Case analysis on whatever a method's result still branches on. *)
Ltac split_match :=
  repeat match goal with
    | |- context [match ?x with _ => _ end] => destruct x eqn:?; cbn
    end.

Lemma read_progress_advances p p' :
  runState read p = (true, p') -> phaseRank (phase p) < phaseRank (phase p').
Proof.
  rewrite read_dispatch. destruct (phase p) eqn:Hs; try discriminate; expose p.
  - unfold readProtocol. cbn. split_match; intros H; inversion H; subst; cbn; lia.
  - unfold receiveSecurityTypeResponse. cbn.
    split_match; intros H; inversion H; subst; cbn; lia.
  - unfold receiveAuthenticationTypeResponse. cbn.
    split_match; intros H; inversion H; subst; cbn; lia.
  - unfold receiveAuthenticationMessage. cbn.
    split_match; intros H; inversion H; subst; cbn; lia.
  - unfold processAccessControl. cbn.
    split_match; intros H; inversion H; subst; cbn; lia.
  - unfold processFramebufferInit. cbn.
    split_match; intros H; inversion H; subst; cbn; lia.
Qed.

Lemma phaseRank_bound (s : State) : phaseRank s <= 8.
Proof. destruct s; cbn; lia. Qed.

(** The loop [while( read() ) { }] comes to its end from every state:
    one round per phase that is left is enough. *)
Lemma readLoop_ends (fuel : nat) p :
  9 - phaseRank (phase p) <= fuel ->
  exists p', runState (readLoop fuel) p = (true, p').
Proof.
  revert p. induction fuel as [|fuel IH]; intros p Hf.
  - pose proof (phaseRank_bound (phase p)). lia.
  - rewrite readLoop_S. destruct (runState read p) as [[|] p1] eqn:Hr.
    + apply IH. apply read_progress_advances in Hr. lia.
    + eexists. reflexivity.
Qed.

(** ** The AuthenticationTypes phase *)

Lemma contains_false (l : list AuthType) (t : AuthType) :
  ~ In t l -> contains l t = false.
Proof.
  intros H. destruct (contains l t) eqn:E; [|reflexivity].
  apply contains_In in E. contradiction.
Qed.

Lemma AuthType_eqb_neq (a b : AuthType) : a <> b -> AuthType_eqb a b = false.
Proof.
  intros H. destruct (AuthType_eqb a b) eqn:E; [|reflexivity].
  apply AuthType_eqb_eq in E. contradiction.
Qed.

(** What [read()] does with the choice of an advertised type other than
    None: the client record is filled in, the acknowledgement goes out,
    the collaborator is called on an empty message, and the result of
    that call is dropped. *)
Lemma read_authType_chosen p (message : VariantArrayMessage) :
  phase p = AuthenticationTypes ->
  messageAvailable p message ->
  In (chosenAuthType message) (supportedAuthTypes (m_serverAuthenticationManager p)) ->
  chosenAuthType message <> RfbVeyonAuth_None ->
  let result :=
    processAuthenticationMessage (m_serverAuthenticationManager p)
      (clientAtAuthStart p message) [] in
  let a := snd (fst result) in
  exists p',
    runState read p = (false, p')
    /\ phase p' = match a with AuthFinishedSuccess => AccessControl | _ => Authenticating end
    /\ authState (m_client p') = a
    /\ isOpen (m_socket p') = match a with AuthFinishedFail => false | _ => true end
    /\ authType (m_client p') = chosenAuthType message
    /\ hostAddress (m_client p') = peerAddress (m_socket p).
Proof.
  intros Hs [Ho [Hready Hrecv]] Hin Hne. cbv zeta.
  rewrite read_dispatch, Hs.
  unfold clientAtAuthStart, chosenAuthType in *. expose p.
  unfold receiveAuthenticationTypeResponse. cbn. rewrite Hready. cbn.
  destruct (vam_receive rb) as [r rest]. cbn in Hrecv. subst r. cbn.
  destruct (messageRead message) as [v message1] eqn:Hm. cbn in *.
  apply contains_In in Hin. rewrite Hin. cbn.
  rewrite (AuthType_eqb_neq _ _ Hne). cbn.
  destruct (messageRead message1) as [v' message2]. cbn.
  destruct (processAuthenticationMessage _ _ _) as [[sam a] out]. cbn.
  destruct a; cbn; eexists; (split; [reflexivity|]); cbn; repeat split.
Qed.



(** C5, as the code has it.  Given a complete message that selects the
    type None, which is advertised, [read()] returns true with the phase
    set to AccessControl; nothing is written, the authentication
    collaborator is not called, and the client record is otherwise as
    before: the peer address is not stored in it. *)
Theorem none_skips_authentication p (message : VariantArrayMessage) :
  phase p = AuthenticationTypes ->
  messageAvailable p message ->
  chosenAuthType message = RfbVeyonAuth_None ->
  In RfbVeyonAuth_None (supportedAuthTypes (m_serverAuthenticationManager p)) ->
  exists p',
    runState read p = (true, p')
    /\ phase p' = AccessControl
    /\ m_client p' = setProtocolState AccessControl (m_client p)
    /\ hostAddress (m_client p') = hostAddress (m_client p)
    /\ authState (m_client p') = authState (m_client p)
    /\ m_serverAuthenticationManager p' = m_serverAuthenticationManager p
    /\ written (m_socket p') = written (m_socket p)
    /\ readBuffer (m_socket p') = snd (vam_receive (readBuffer (m_socket p)))
    /\ isOpen (m_socket p') = true.
Proof.
  intros Hs [Ho [Hready Hrecv]] Hnone Hin.
  rewrite read_dispatch, Hs. unfold chosenAuthType in *. expose p.
  unfold receiveAuthenticationTypeResponse. cbn. rewrite Hready. cbn.
  destruct (vam_receive rb) as [r rest]. cbn in Hrecv. subst r. cbn.
  destruct (messageRead message) as [v message1] eqn:Hm. cbn in *.
  rewrite Hnone. apply contains_In in Hin. rewrite Hin. cbn.
  rewrite (proj2 (AuthType_eqb_eq _ _) eq_refl).
  eexists. split; [reflexivity|]. cbn. repeat split.
Qed.

(** ** Phases with a fixed byte count *)

(** C3, as the code has it.  In a phase that waits for a fixed number
    of bytes, [read()] returns false and changes nothing while fewer are
    buffered; with exactly that many buffered and input that passes the
    checks of the source, it returns true and has taken exactly that many
    bytes from the read buffer. *)
Theorem fixed_requirement_exact p (n : nat) :
  requiredBytes (phase p) = Some n ->
  (sock_bytesAvailable (m_socket p) < n -> runState read p = (false, p))
  /\ (sock_bytesAvailable (m_socket p) = n ->
      acceptableInput p ->
      exists p',
        runState read p = (true, p')
        /\ readBuffer (m_socket p') = skipn n (readBuffer (m_socket p))
        /\ phaseRank (phase p') = S (phaseRank (phase p))).
Proof.
  intros Hreq. unfold acceptableInput. rewrite read_dispatch.
  destruct (phase p) eqn:Hs; try discriminate; cbn in Hreq; inversion Hreq; subst n;
    clear Hreq; expose p; unfold sock_bytesAvailable; cbn.
  - (* Protocol *)
    split.
    + intros Hlt. unfold readProtocol. cbn. unfold sock_bytesAvailable. cbn.
      destruct (Nat.eqb_spec (if o then length rb else 0) sz_rfbProtocolVersionMsg);
        [lia | reflexivity].
    + intros Hn Hok. destruct o; [|discriminate].
      unfold readProtocol. cbn. rewrite Hn. cbn.
      destruct (sscanf_rfbProtocolVersion _) eqn:Hp; [|congruence].
      eexists. split; [reflexivity|]. cbn. auto.
  - (* SecurityInit *)
    split.
    + intros Hlt. unfold receiveSecurityTypeResponse. cbn. unfold sock_bytesAvailable. cbn.
      destruct (if o then length rb else 0) as [|k]; [reflexivity | lia].
    + intros Hn Hok. destruct o; [|discriminate].
      destruct rb as [|b [|b' rb]]; try discriminate. cbn in Hok. inversion Hok; subst b.
      unfold receiveSecurityTypeResponse. cbn.
      rewrite (Byte.byte_dec_lb eq_refl). eexists. split; [reflexivity|]. cbn. auto.
  - (* FramebufferInit *)
    split.
    + intros Hlt. unfold processFramebufferInit. cbn. unfold sock_bytesAvailable. cbn.
      destruct (Nat.leb_spec sz_rfbClientInitMsg (if o then length rb else 0));
        [lia | reflexivity].
    + intros Hn Hok. unfold processFramebufferInit. cbn. unfold sock_bytesAvailable. cbn.
      rewrite Hn, Nat.leb_refl. destruct m_serverInitMessage0; [congruence|]. cbn.
      unfold sock_read. cbn. destruct o; cbn.
      * eexists. split; [reflexivity|]. cbn. auto.
      * eexists. split; [reflexivity|]. cbn. rewrite <- Hn. auto.
Qed.

(** ** Fatal conditions *)

(** C8, as the code has it.  The [read()] call that detects a fatal
    condition closes the socket and returns false, and it never sets
    the phase to Close.  The phase is the one the call began in, with
    one exception: when authentication fails at the first call of the
    collaborator, the call began in AuthenticationTypes and the phase
    is Authenticating. *)
Theorem fatal_condition_closes (k : FatalCondition) p :
  detects k p ->
  exists p',
    runState read p = (false, p')
    /\ isOpen (m_socket p') = false
    /\ phase p' <> Close
    /\ phase p' = match k with
                  | AuthenticationFailedAtStart => Authenticating
                  | _ => phase p
                  end.
Proof.
  destruct k; cbn [detects].
  - (* malformed banner *)
    intros [Hs [Hn Hbad]]. rewrite read_dispatch, Hs. expose p.
    unfold sock_bytesAvailable in Hn. cbn in Hn. destruct o.
    2:{ unfold sz_rfbProtocolVersionMsg in Hn. discriminate. }
    unfold readProtocol. cbn. rewrite Hn. cbn. rewrite Hbad.
    eexists. split; [reflexivity|]. cbn. repeat split. discriminate.
  - (* wrong security type *)
    intros [Hs [Ho [b [rest [Hb Hne]]]]].
    rewrite (read_wrong_security_type p b rest Hs Ho Hb Hne).
    eexists. split; [reflexivity|]. unfold phase in *. cbn. rewrite Hs.
    repeat split. discriminate.
  - (* authentication type that was not advertised *)
    intros [Hs [message [[Ho [Hready Hrecv]] Hnot]]].
    rewrite read_dispatch, Hs. unfold chosenAuthType in *. expose p.
    unfold receiveAuthenticationTypeResponse. cbn. rewrite Hready. cbn.
    destruct (vam_receive rb) as [r rest]. cbn in Hrecv. subst r. cbn.
    destruct (messageRead message) as [v message1] eqn:Hm. cbn in *.
    rewrite (contains_false _ _ Hnot). cbn.
    eexists. split; [reflexivity|]. cbn. repeat split. discriminate.
  - (* authentication failed on a message *)
    intros [Hs [message [[Ho [Hready Hrecv]] Hfail]]].
    rewrite read_dispatch, Hs. expose p.
    unfold receiveAuthenticationMessage. cbn. rewrite Hready. cbn.
    destruct (vam_receive rb) as [r rest]. cbn in Hrecv. subst r. cbn.
    destruct (processAuthenticationMessage _ _ _) as [[sam a] out].
    cbn in Hfail. subst a. cbn.
    eexists. split; [reflexivity|]. cbn. repeat split. discriminate.
  - (* authentication failed at the first call *)
    intros [Hs [message [Hav [Hin [Hne Hfail]]]]].
    destruct (read_authType_chosen p message Hs Hav Hin Hne)
      as [p' [Hr [Hph [_ [Hc _]]]]].
    rewrite Hfail in Hph, Hc.
    exists p'. rewrite Hph. repeat split; try assumption. discriminate.
  - (* access denied *)
    intros [Hs Hden]. rewrite read_dispatch, Hs.
    unfold decisionAfterEnqueue in Hden. expose p.
    unfold processAccessControl. cbn.
    destruct accessControlState0; cbn in *;
      try (destruct Hden; discriminate);
      try (destruct (addClient _ _) as [acm a]; cbn in *;
           destruct Hden; subst a; cbn);
      eexists; (split; [reflexivity|]); cbn; repeat split; discriminate.
Qed.
(** * Further properties of the methods *)

(** ** The phase order *)

Lemma read_phase_step p :
  phaseRank (phase p) <= phaseRank (phase (snd (runState read p)))
  /\ (phase (snd (runState read p)) = Close -> phase p = Close)
  /\ (phase (snd (runState read p)) = Disconnected -> phase p = Disconnected).
Proof.
  read_cases p; repeat split; intros; first [lia | congruence].
Qed.

(** X1.  Over any number of [read()] calls the phase never moves
    backward in the handshake order, and [read()] never puts a
    connection into the Close or the Disconnected phase. *)
Theorem reads_phase_monotone (n : nat) p :
  phaseRank (phase p) <= phaseRank (phase (snd (runState (reads n) p)))
  /\ (phase (snd (runState (reads n) p)) = Close -> phase p = Close)
  /\ (phase (snd (runState (reads n) p)) = Disconnected -> phase p = Disconnected).
Proof.
  revert p. induction n as [|n IH]; intros p.
  - cbn. auto.
  - rewrite reads_S. pose proof (read_phase_step p) as [H1 [H2 H3]].
    destruct (runState read p) as [b p1]. cbn in H1, H2, H3.
    specialize (IH p1). destruct (runState (reads n) p1) as [bs p2].
    cbn in *. destruct IH as [I1 [I2 I3]]. repeat split; [lia | auto | auto].
Qed.

Lemma readLoop_more_fuel (fuel extra : nat) p p' :
  runState (readLoop fuel) p = (true, p') ->
  runState (readLoop (fuel + extra)) p = (true, p').
Proof.
  revert p. induction fuel as [|fuel IH]; intros p.
  - cbn. discriminate.
  - cbn [Nat.add]. rewrite !readLoop_S.
    destruct (runState read p) as [[|] p1]; [apply IH | auto].
Qed.

(** X2.  The loop [while( read() ) { }] terminates from every state: a
    bound of one round per phase that is left is enough, and every
    larger bound gives the same final state. *)
Theorem readLoop_terminates (fuel : nat) p :
  9 - phaseRank (phase p) <= fuel ->
  exists p',
    runState (readLoop (9 - phaseRank (phase p))) p = (true, p')
    /\ runState (readLoop fuel) p = (true, p').
Proof.
  intros Hf.
  destruct (readLoop_ends (9 - phaseRank (phase p)) p (le_n _)) as [p' Hp'].
  exists p'. split; [exact Hp'|].
  replace fuel with ((9 - phaseRank (phase p)) + (fuel - (9 - phaseRank (phase p))))
    by lia.
  apply readLoop_more_fuel. exact Hp'.
Qed.

Lemma readLoop_phase_monotone (fuel : nat) p :
  phaseRank (phase p) <= phaseRank (phase (snd (runState (readLoop fuel) p)))
  /\ (phase (snd (runState (readLoop fuel) p)) = Close -> phase p = Close).
Proof.
  revert p. induction fuel as [|fuel IH]; intros p.
  - cbn. auto.
  - rewrite readLoop_S. pose proof (read_phase_step p) as [H1 [H2 _]].
    destruct (runState read p) as [[|] p1]; cbn in H1, H2.
    + destruct (IH p1) as [I1 I2]. split; [lia | auto].
    + cbn. auto.
Qed.

Lemma finishAccessControl_unfold (fuel client : nat) p :
  runState (finishAccessControl fuel client) p =
  if client =? m_clientId p
  then let (b, q) := runState processAccessControl p in
       if b then runState (readLoop fuel) q else (true, q)
  else (true, p).
Proof.
  change (runState (finishAccessControl fuel client) p)
    with (runState
            (if client =? m_clientId p
             then progress <- processAccessControl ;;
                  if progress then readLoop fuel else ret true
             else ret true) p).
  destruct (client =? m_clientId p); [|reflexivity].
  change (runState (progress <- processAccessControl ;;
                    if progress then readLoop fuel else ret true) p)
    with (let (b, q) := runState processAccessControl p in
          runState (if b then readLoop fuel else ret true) q).
  destruct (runState processAccessControl p) as [[|] q]; reflexivity.
Qed.

(** X3.  [finishAccessControl] does not look at the phase: when the
    notification names this connection and the decision is Successful,
    the connection ends in FramebufferInit or Running from whatever
    phase it was in, Running and the phases before authentication
    included. *)
Theorem finishAccessControl_successful_any_phase (fuel : nat) p :
  accessControlState (m_client p) = AccessControlSuccessful ->
  let p' := snd (runState (finishAccessControl fuel (m_clientId p)) p) in
  phase p' = FramebufferInit \/ phase p' = Running.
Proof.
  intros Ha. cbv zeta. rewrite finishAccessControl_unfold, Nat.eqb_refl.
  assert (Hpac : runState processAccessControl p
                 = (true, withClient (setProtocolState FramebufferInit (m_client p)) p)).
  { expose p. reflexivity. }
  rewrite Hpac.
  set (p1 := withClient (setProtocolState FramebufferInit (m_client p)) p).
  destruct (readLoop_phase_monotone fuel p1) as [H1 H2].
  change (phase p1) with FramebufferInit in H1, H2. cbn in H1.
  destruct (phase (snd (runState (readLoop fuel) p1))); cbn in H1; try lia; auto.
  specialize (H2 eq_refl). discriminate.
Qed.

(** X4.  [finishAccessControl] runs the loop of [read()] calls only on
    a Successful decision.  A notification for another client leaves
    the object as it is; one for this client whose decision is not
    Successful does what one call of [processAccessControl] does and
    reads nothing from the socket. *)
Theorem finishAccessControl_without_success (fuel client : nat) p :
  (client <> m_clientId p ->
   runState (finishAccessControl fuel client) p = (true, p))
  /\ (decisionAfterEnqueue p <> AccessControlSuccessful ->
      runState (finishAccessControl fuel (m_clientId p)) p
      = (true, snd (runState processAccessControl p))
      /\ phase (snd (runState processAccessControl p)) = phase p
      /\ (isOpen (m_socket p) = true ->
          isOpen (m_socket (snd (runState processAccessControl p))) = true ->
          readBuffer (m_socket (snd (runState processAccessControl p)))
          = readBuffer (m_socket p))).
Proof.
  split.
  - intros Hne. rewrite finishAccessControl_unfold.
    destruct (Nat.eqb_spec client (m_clientId p)); [contradiction | reflexivity].
  - intros Hd. rewrite finishAccessControl_unfold, Nat.eqb_refl.
    unfold decisionAfterEnqueue in Hd. expose p.
    unfold processAccessControl. cbn.
    destruct accessControlState0; cbn in *; try congruence;
      try (destruct (addClient _ _) as [acm a]; cbn in *; destruct a; cbn;
           try congruence);
      repeat split; intros; congruence.
Qed.

(** ** What the methods leave alone *)

Lemma read_closed_step p :
  isOpen (m_socket p) = false ->
  isOpen (m_socket (snd (runState read p))) = false
  /\ written (m_socket (snd (runState read p))) = written (m_socket p)
  /\ (beforeAccessControl (phase p) = true -> runState read p = (false, p)).
Proof.
  intros Ho. rewrite read_dispatch. destruct (phase p) eqn:Hs; expose p;
    run_methods; split_inner; cbn; repeat split; intros; congruence.
Qed.

(** X5.  On a closed socket [read()] never reopens it and writes
    nothing, however often it is called; in the phases before access
    control every such call returns false and changes nothing, so a
    connection closed there stays where it is. *)
Theorem reads_on_closed_socket (n : nat) p :
  isOpen (m_socket p) = false ->
  isOpen (m_socket (snd (runState (reads n) p))) = false
  /\ written (m_socket (snd (runState (reads n) p))) = written (m_socket p)
  /\ (beforeAccessControl (phase p) = true ->
      runState (reads n) p = (repeat false n, p)).
Proof.
  revert p. induction n as [|n IH]; intros p Ho.
  - cbn. auto.
  - rewrite reads_S. destruct (read_closed_step p Ho) as [H1 [H2 H3]].
    destruct (runState read p) as [b p1] eqn:Hr. cbn in H1, H2.
    destruct (IH p1 H1) as [I1 [I2 I3]].
    destruct (runState (reads n) p1) as [bs p2] eqn:Hrs. cbn in *.
    repeat split; [exact I1 | congruence |].
    intros Hb. specialize (H3 Hb). inversion H3; subst b p1.
    specialize (I3 Hb). inversion I3; subst. reflexivity.
Qed.

Lemma processAccessControl_frame p :
  let p' := snd (runState processAccessControl p) in
  written (m_socket p') = written (m_socket p)
  /\ authType (m_client p') = authType (m_client p)
  /\ username (m_client p') = username (m_client p)
  /\ hostAddress (m_client p') = hostAddress (m_client p)
  /\ m_serverInitMessage p' = m_serverInitMessage p
  /\ (fst (runState processAccessControl p) = true -> phase p' = FramebufferInit)
  /\ (fst (runState processAccessControl p) = false -> phase p' = phase p).
Proof.
  cbv zeta. expose p. destruct o; run_methods; split_inner; cbn;
    repeat split; intros; congruence.
Qed.

Lemma read_identity_step p :
  phase p <> AuthenticationTypes ->
  identity (snd (runState read p)) = identity p
  /\ m_serverInitMessage (snd (runState read p)) = m_serverInitMessage p.
Proof.
  intros Hne. unfold identity. read_cases p; try congruence; auto.
Qed.

Lemma reads_identity (n : nat) p :
  3 < phaseRank (phase p) ->
  identity (snd (runState (reads n) p)) = identity p.
Proof.
  revert p. induction n as [|n IH]; intros p Hr.
  - reflexivity.
  - rewrite reads_S.
    assert (Hne : phase p <> AuthenticationTypes)
      by (intros E; rewrite E in Hr; cbn in Hr; lia).
    destruct (read_identity_step p Hne) as [Hi _].
    pose proof (read_phase_step p) as [Hm _].
    destruct (runState read p) as [b p1]. cbn in Hi, Hm.
    specialize (IH p1 ltac:(lia)).
    destruct (runState (reads n) p1) as [bs p2]. cbn in *. congruence.
Qed.

Lemma readLoop_identity (fuel : nat) p :
  3 < phaseRank (phase p) ->
  identity (snd (runState (readLoop fuel) p)) = identity p.
Proof.
  revert p. induction fuel as [|fuel IH]; intros p Hr.
  - reflexivity.
  - rewrite readLoop_S.
    assert (Hne : phase p <> AuthenticationTypes)
      by (intros E; rewrite E in Hr; cbn in Hr; lia).
    destruct (read_identity_step p Hne) as [Hi _].
    pose proof (read_phase_step p) as [Hm _].
    destruct (runState read p) as [[|] p1]; cbn in Hi, Hm.
    + rewrite IH by lia. exact Hi.
    + exact Hi.
Qed.

(** X7.  The negotiated authentication type, the user name and the
    host address are settled once the connection is past the
    AuthenticationTypes phase: no later [read()] changes them, and
    [finishAccessControl] never changes them, whatever the phase. *)
Theorem identity_settled p :
  (3 < phaseRank (phase p) ->
   forall n, identity (snd (runState (reads n) p)) = identity p)
  /\ (forall fuel client,
        identity (snd (runState (finishAccessControl fuel client) p)) = identity p).
Proof.
  split.
  - intros Hr n. apply reads_identity. exact Hr.
  - intros fuel client. rewrite finishAccessControl_unfold.
    destruct (client =? m_clientId p); [|reflexivity].
    destruct (processAccessControl_frame p) as [_ [Ha [Hu [Hh [_ [Ht _]]]]]].
    destruct (runState processAccessControl p) as [[|] q]; cbn in *.
    + rewrite readLoop_identity.
      * unfold identity. congruence.
      * rewrite (Ht eq_refl). cbn. lia.
    + unfold identity. congruence.
Qed.

Lemma read_without_payload p :
  m_serverInitMessage p = [] ->
  phase p <> Running ->
  m_serverInitMessage (snd (runState read p)) = []
  /\ phase (snd (runState read p)) <> Running.
Proof.
  intros Hi Hne. read_cases p; split;
    first [ congruence
          | match goal with
            | H : _ && false = true |- _ => rewrite andb_false_r in H; discriminate
            end ].
Qed.

Lemma readLoop_without_payload (fuel : nat) p :
  m_serverInitMessage p = [] ->
  phase p <> Running ->
  phase (snd (runState (readLoop fuel) p)) <> Running.
Proof.
  revert p. induction fuel as [|fuel IH]; intros p Hi Hne.
  - exact Hne.
  - rewrite readLoop_S. destruct (read_without_payload p Hi Hne) as [H1 H2].
    destruct (runState read p) as [[|] p1]; cbn in *; auto.
Qed.

(** X8.  Without a server-init message the handshake cannot complete:
    no method of the class sets the message, and as long as it is empty
    (as the constructor leaves it) no sequence of [read()] calls and no
    [finishAccessControl] takes a connection into the Running phase. *)
Theorem no_payload_no_Running p :
  m_serverInitMessage p = [] ->
  phase p <> Running ->
  (forall n,
      phase (snd (runState (reads n) p)) <> Running
      /\ m_serverInitMessage (snd (runState (reads n) p)) = [])
  /\ (forall fuel client,
        phase (snd (runState (finishAccessControl fuel client) p)) <> Running).
Proof.
  intros Hi Hne. split.
  - intros n. revert p Hi Hne. induction n as [|n IH]; intros p Hi Hne.
    + cbn. auto.
    + rewrite reads_S. destruct (read_without_payload p Hi Hne) as [H1 H2].
      destruct (runState read p) as [b p1]. cbn in H1, H2.
      specialize (IH p1 H1 H2). destruct (runState (reads n) p1) as [bs p2].
      exact IH.
  - intros fuel client. rewrite finishAccessControl_unfold.
    destruct (client =? m_clientId p); [|exact Hne].
    destruct (processAccessControl_frame p) as [_ [_ [_ [_ [Hm [Ht Hf]]]]]].
    destruct (runState processAccessControl p) as [[|] q]; cbn in *.
    + apply readLoop_without_payload; [congruence|].
      rewrite (Ht eq_refl). discriminate.
    + rewrite (Hf eq_refl). exact Hne.
Qed.

(** ** The version banner *)

Lemma digit_facts (b : byte) :
  isdigit b = true ->
  Byte.eqb b x00 = false /\ isspace b = false
  /\ Byte.eqb b "-"%byte = false /\ Byte.eqb b "+"%byte = false.
Proof. destruct b; vm_compute; intros H; try discriminate H; repeat split. Qed.

Lemma cstring_without_NUL (l : list byte) :
  Forall (fun b => Byte.eqb b x00 = false) l -> cstring l = l.
Proof.
  induction 1 as [|b l Hb _ IH]; [reflexivity|].
  cbn [cstring]. rewrite Hb, IH. reflexivity.
Qed.

Lemma scan_03d_three (a b c : byte) (rest : list byte) :
  isdigit a = true -> isdigit b = true -> isdigit c = true ->
  scan_03d (a :: b :: c :: rest)
  = Some ((10 * (10 * (10 * 0 + digitValue a) + digitValue b) + digitValue c)%Z, rest).
Proof.
  intros Ha Hb Hc. destruct (digit_facts a Ha) as [_ [Hs [Hm Hp]]].
  unfold scan_03d. cbn [skipSpaces]. rewrite Hs, Hm, Hp.
  cbn [scanDigits]. rewrite Ha, Hb, Hc. reflexivity.
Qed.

Lemma print_03d_all : forallb (fun n => threeDigitsOf n (print_03d n)) (seq 0 1000) = true.
Proof. vm_compute. reflexivity. Qed.

Lemma print_03d_three (n : nat) :
  n < 1000 ->
  exists a b c,
    print_03d n = [a; b; c]
    /\ isdigit a = true /\ isdigit b = true /\ isdigit c = true
    /\ (10 * (10 * (10 * 0 + digitValue a) + digitValue b) + digitValue c)%Z = Z.of_nat n.
Proof.
  intros Hn. pose proof print_03d_all as Hall. rewrite forallb_forall in Hall.
  specialize (Hall n). rewrite in_seq in Hall. specialize (Hall ltac:(lia)).
  unfold threeDigitsOf in Hall.
  destruct (print_03d n) as [|a [|b [|c [|? ?]]]]; try discriminate.
  apply andb_prop in Hall. destruct Hall as [Hall Hv].
  apply andb_prop in Hall. destruct Hall as [Hall Hc].
  apply andb_prop in Hall. destruct Hall as [Ha Hb].
  apply Z.eqb_eq in Hv. exists a, b, c. auto.
Qed.

(** The banner that [sprintf] writes is read back by [sscanf]. *)
Lemma sscanf_sprintf (major minor : nat) :
  major < 1000 -> minor < 1000 ->
  sscanf_rfbProtocolVersion (sprintf_rfbProtocolVersion major minor)
  = Some (Z.of_nat major, Z.of_nat minor)
  /\ length (sprintf_rfbProtocolVersion major minor) = sz_rfbProtocolVersionMsg.
Proof.
  intros HM Hm.
  destruct (print_03d_three major HM) as [a [b [c [Ep [Ha [Hb [Hc Hv]]]]]]].
  destruct (print_03d_three minor Hm) as [d [e [f [Eq [Hd [He [Hf Hw]]]]]]].
  unfold sprintf_rfbProtocolVersion. rewrite Ep, Eq.
  change (list_byte_of_string "RFB ") with ["R"; "F"; "B"; " "]%byte.
  change (list_byte_of_string ".") with ["."]%byte.
  cbn [app]. split; [|reflexivity].
  unfold sscanf_rfbProtocolVersion. rewrite cstring_without_NUL.
  2:{ repeat constructor; try apply digit_facts; assumption. }
  rewrite !(Byte.byte_dec_lb eq_refl). cbn [andb].
  cbn [skipSpaces]. change (isspace " "%byte) with true. cbv iota.
  destruct (digit_facts a Ha) as [_ [Hs _]]. rewrite Hs.
  rewrite scan_03d_three by assumption.
  rewrite (Byte.byte_dec_lb eq_refl).
  rewrite scan_03d_three by assumption.
  rewrite Hv, Hw. reflexivity.
Qed.

Lemma sscanf_needs_RFB (l : list byte) :
  firstn 3 l <> list_byte_of_string "RFB" ->
  sscanf_rfbProtocolVersion l = None.
Proof.
  intros Hne. unfold sscanf_rfbProtocolVersion.
  destruct l as [|r [|f [|b l]]]; cbn [cstring];
    repeat match goal with
      | |- context [if Byte.eqb ?x x00 then _ else _] => destruct (Byte.eqb x x00)
      end; try reflexivity.
  destruct (Byte.eqb r "R"%byte) eqn:Er; [|reflexivity].
  destruct (Byte.eqb f "F"%byte) eqn:Ef; [|reflexivity].
  destruct (Byte.eqb b "B"%byte) eqn:Eb; [|reflexivity].
  apply Byte.byte_dec_bl in Er, Ef, Eb. subst. exfalso. apply Hne. reflexivity.
Qed.

(** With exactly twelve bytes buffered, [readProtocol] takes them all
    and goes by what [sscanf] makes of them. *)
Lemma readProtocol_twelve p :
  phase p = Protocol ->
  isOpen (m_socket p) = true ->
  length (readBuffer (m_socket p)) = sz_rfbProtocolVersionMsg ->
  exists p',
    runState read p
    = (match sscanf_rfbProtocolVersion (readBuffer (m_socket p)) with
       | Some _ => true
       | None => false
       end, p')
    /\ phase p'
       = match sscanf_rfbProtocolVersion (readBuffer (m_socket p)) with
         | Some _ => SecurityInit
         | None => Protocol
         end
    /\ isOpen (m_socket p')
       = match sscanf_rfbProtocolVersion (readBuffer (m_socket p)) with
         | Some _ => true
         | None => false
         end
    /\ readBuffer (m_socket p') = []
    /\ written (m_socket p')
       = match sscanf_rfbProtocolVersion (readBuffer (m_socket p)) with
         | Some _ => written (m_socket p) ++ [x01; rfbSecTypeVeyon]
         | None => written (m_socket p)
         end.
Proof.
  intros Hs Ho Hl. rewrite read_dispatch, Hs.
  destruct p as [[o rb w pa] c id sam acm init].
  cbn [m_socket isOpen readBuffer written] in *. subst o.
  unfold readProtocol, bytesAvailable, socketRead, sock_bytesAvailable, sock_read.
  cbn -[firstn skipn sscanf_rfbProtocolVersion Nat.eqb].
  rewrite Hl, Nat.eqb_refl.
  cbn -[firstn skipn sscanf_rfbProtocolVersion].
  rewrite <- Hl, firstn_all, skipn_all.
  destruct (sscanf_rfbProtocolVersion rb); eexists; (split; [reflexivity|]); cbn; auto.
Qed.

(** X9.  [readProtocol] accepts the banner of every version: the
    twelve bytes that [sprintf] makes of any major and minor number
    below 1000 parse back to these numbers, which are not compared with
    the server's own 3.8; the phase becomes SecurityInit and the answer
    is the two bytes of the security-type list. *)
Theorem any_version_accepted (major minor : nat) p :
  major < 1000 -> minor < 1000 ->
  phase p = Protocol ->
  isOpen (m_socket p) = true ->
  readBuffer (m_socket p) = sprintf_rfbProtocolVersion major minor ->
  sscanf_rfbProtocolVersion (readBuffer (m_socket p))
  = Some (Z.of_nat major, Z.of_nat minor)
  /\ exists p',
       runState read p = (true, p')
       /\ phase p' = SecurityInit
       /\ readBuffer (m_socket p') = []
       /\ written (m_socket p') = written (m_socket p) ++ [x01; rfbSecTypeVeyon].
Proof.
  intros HM Hm Hs Ho Hb. destruct (sscanf_sprintf major minor HM Hm) as [Hp Hl].
  rewrite <- Hb in Hp, Hl. split; [exact Hp|].
  destruct (readProtocol_twelve p Hs Ho Hl) as [p' [Hr [H1 [_ [H3 H4]]]]].
  rewrite Hp in Hr, H1, H4. exists p'. auto.
Qed.

(** X10.  Twelve bytes that do not begin with the letters RFB are not
    a banner: [readProtocol] closes the socket, returns false and
    writes nothing. *)
Theorem banner_without_RFB_closes p :
  phase p = Protocol ->
  isOpen (m_socket p) = true ->
  length (readBuffer (m_socket p)) = sz_rfbProtocolVersionMsg ->
  firstn 3 (readBuffer (m_socket p)) <> list_byte_of_string "RFB" ->
  exists p',
    runState read p = (false, p')
    /\ isOpen (m_socket p') = false
    /\ phase p' = Protocol
    /\ written (m_socket p') = written (m_socket p).
Proof.
  intros Hs Ho Hl Hne.
  destruct (readProtocol_twelve p Hs Ho Hl) as [p' [Hr [H1 [H2 [_ H4]]]]].
  rewrite (sscanf_needs_RFB _ Hne) in Hr, H1, H2, H4. exists p'. auto.
Qed.

(** ** The steps that take bytes, with more bytes buffered *)

(** X11.  In the SecurityInit phase the advertised security type is
    accepted with any bytes behind it: exactly one byte is taken, the
    rest stays buffered, the phase becomes AuthenticationTypes, and the
    message that goes out holds the number of supported authentication
    types followed by each of them in order. *)
Theorem security_type_accepted p (rest : list byte) :
  phase p = SecurityInit ->
  isOpen (m_socket p) = true ->
  readBuffer (m_socket p) = rfbSecTypeVeyon :: rest ->
  exists p',
    runState read p = (true, p')
    /\ phase p' = AuthenticationTypes
    /\ readBuffer (m_socket p') = rest
    /\ isOpen (m_socket p') = true
    /\ written (m_socket p')
       = written (m_socket p)
         ++ vam_encode
              (QVariant_fromInt
                 (Z.of_nat (length (supportedAuthTypes (m_serverAuthenticationManager p))))
               :: map QVariant_fromAuthType
                    (supportedAuthTypes (m_serverAuthenticationManager p))).
Proof.
  intros Hs Ho Hb. rewrite read_dispatch, Hs. expose p.
  unfold receiveSecurityTypeResponse. cbn.
  rewrite (Byte.byte_dec_lb eq_refl).
  eexists. split; [reflexivity|]. cbn. auto.
Qed.

(** X12.  In the FramebufferInit phase, with a server-init message at
    hand, [read()] goes on as soon as at least the client-init size is
    buffered: it takes exactly that many bytes and leaves the rest for
    the session that follows.  With an empty server-init message it
    returns false and changes nothing, whatever is buffered. *)
Theorem framebufferInit_takes_clientInit_only p :
  phase p = FramebufferInit ->
  (m_serverInitMessage p = [] -> runState read p = (false, p))
  /\ (m_serverInitMessage p <> [] ->
      isOpen (m_socket p) = true ->
      sz_rfbClientInitMsg <= length (readBuffer (m_socket p)) ->
      exists p',
        runState read p = (true, p')
        /\ phase p' = Running
        /\ readBuffer (m_socket p') = skipn sz_rfbClientInitMsg (readBuffer (m_socket p))
        /\ written (m_socket p') = written (m_socket p) ++ m_serverInitMessage p
        /\ runState read p' = (false, p')).
Proof.
  intros Hs. split.
  - intros Hi. rewrite read_dispatch, Hs. expose p. unfold processFramebufferInit. cbn.
    rewrite andb_false_r. reflexivity.
  - intros Hi Ho Hn. rewrite read_dispatch, Hs.
    rewrite (processFramebufferInit_ready p Ho Hn Hi).
    eexists. split; [reflexivity|]. cbn. repeat split.
Qed.

(** ** The phases that wait for a message *)

(** X13.  In the AuthenticationTypes and Authenticating phases an
    incomplete message is not an error: [read()] returns false and
    changes nothing.  A message that is complete but fails to decode is
    dropped: the bytes that the codec took are gone, [read()] returns
    false, and the socket stays open with the phase unchanged and
    nothing written. *)
Theorem message_incomplete_or_undecodable p :
  awaitsMessage (phase p) = true ->
  (isOpen (m_socket p) && vam_isReadyForReceive (readBuffer (m_socket p)) = false ->
   runState read p = (false, p))
  /\ (isOpen (m_socket p) = true ->
      vam_isReadyForReceive (readBuffer (m_socket p)) = true ->
      fst (vam_receive (readBuffer (m_socket p))) = None ->
      runState read p
      = (false,
         withSocket
           (mkSocket true (snd (vam_receive (readBuffer (m_socket p))))
              (written (m_socket p)) (peerAddress (m_socket p))) p)).
Proof.
  intros Hw. rewrite read_dispatch.
  destruct (phase p) eqn:Hs; try discriminate; expose p.
  - split.
    + intros Hr. unfold receiveAuthenticationTypeResponse. cbn. rewrite Hr. reflexivity.
    + intros Ho Hr Hn. subst. unfold receiveAuthenticationTypeResponse. cbn.
      rewrite Hr. cbn. destruct (vam_receive rb) as [r rest]. cbn in *. subst r.
      reflexivity.
  - split.
    + intros Hr. unfold receiveAuthenticationMessage. cbn. rewrite Hr. reflexivity.
    + intros Ho Hr Hn. subst. unfold receiveAuthenticationMessage. cbn.
      rewrite Hr. cbn. destruct (vam_receive rb) as [r rest]. cbn in *. subst r.
      reflexivity.
Qed.

(** X14.  When an advertised type other than None is chosen, the
    authentication collaborator is first called with the client record
    already holding the chosen type, the user name (the second value of
    the message) and the peer address; the acknowledgement goes out
    before anything the collaborator writes, and the success code, if
    the collaborator succeeds at once, after it. *)
Theorem authentication_start_order p (message : VariantArrayMessage)
    (sam : ServerAuthenticationManager) (a : AuthState) (out : list byte) :
  phase p = AuthenticationTypes ->
  messageAvailable p message ->
  In (chosenAuthType message) (supportedAuthTypes (m_serverAuthenticationManager p)) ->
  chosenAuthType message <> RfbVeyonAuth_None ->
  processAuthenticationMessage (m_serverAuthenticationManager p)
    (clientAtAuthStart p message) [] = (sam, a, out) ->
  exists p',
    runState read p = (false, p')
    /\ written (m_socket p')
       = written (m_socket p) ++ vam_encode [] ++ out
         ++ match a with
            | AuthFinishedSuccess => qToBigEndian32 rfbVncAuthOK
            | _ => []
            end
    /\ m_serverAuthenticationManager p' = sam
    /\ username (m_client p')
       = QVariant_toString (fst (messageRead (snd (messageRead message))))
    /\ readBuffer (m_socket p')
       = match a with
         | AuthFinishedFail => []
         | _ => snd (vam_receive (readBuffer (m_socket p)))
         end.
Proof.
  intros Hs [Ho [Hready Hrecv]] Hin Hne Hauth.
  rewrite read_dispatch, Hs.
  unfold clientAtAuthStart, chosenAuthType in *. expose p.
  unfold receiveAuthenticationTypeResponse. cbn. rewrite Hready. cbn.
  destruct (vam_receive rb) as [r rest]. cbn in Hrecv. subst r. cbn.
  destruct (messageRead message) as [v message1] eqn:Hm. cbn in *.
  apply contains_In in Hin. rewrite Hin. cbn.
  rewrite (AuthType_eqb_neq _ _ Hne). cbn.
  destruct (messageRead message1) as [v' message2]. cbn in *.
  rewrite Hauth. cbn.
  destruct a; cbn; eexists; (split; [reflexivity|]); cbn;
    rewrite <- ?app_assoc, ?app_nil_r; repeat split.
Qed.

(** ** The AccessControl phase, whatever the decision *)

(** X15.  One [read()] in the AccessControl phase is decided by the
    access-control state after the client has, if it was Init or
    Waiting, been added to the manager (a decision that the manager
    takes at once counts): the client record holds that state, the
    call returns true and moves to FramebufferInit exactly on
    Successful, keeps the socket as it is on Successful, Pending and
    Waiting and closes it otherwise; it writes nothing, and it leaves
    the manager alone unless the client was Init or Waiting. *)
Theorem accessControl_by_decision p :
  phase p = AccessControl ->
  let d := decisionAfterEnqueue p in
  let p' := snd (runState read p) in
  fst (runState read p) = grants d
  /\ accessControlState (m_client p') = d
  /\ phase p' = (if grants d then FramebufferInit else AccessControl)
  /\ isOpen (m_socket p') = isOpen (m_socket p) && keepsOpen d
  /\ (keepsOpen d = true -> m_socket p' = m_socket p)
  /\ written (m_socket p') = written (m_socket p)
  /\ (accessControlState (m_client p) <> AccessControlInit ->
      accessControlState (m_client p) <> AccessControlWaiting ->
      m_serverAccessControlManager p' = m_serverAccessControlManager p).
Proof.
  intros Hs. cbv zeta. rewrite read_dispatch, Hs. unfold decisionAfterEnqueue.
  expose p. unfold processAccessControl. cbn.
  destruct accessControlState0; cbn;
    try (destruct (addClient _ _) as [acm a]; cbn; destruct a; cbn);
    rewrite ?andb_true_r, ?andb_false_r;
    repeat split; intros; congruence.
Qed.

(** X16.  [read()] consults each collaborator in its own phases only:
    outside AuthenticationTypes and Authenticating the authentication
    manager and the authentication state are untouched, and outside
    AccessControl the access-control manager and the access-control
    state are. *)
Theorem collaborators_in_their_phases p :
  (awaitsMessage (phase p) = false ->
   m_serverAuthenticationManager (snd (runState read p)) = m_serverAuthenticationManager p
   /\ authState (m_client (snd (runState read p))) = authState (m_client p))
  /\ (phase p <> AccessControl ->
      m_serverAccessControlManager (snd (runState read p))
      = m_serverAccessControlManager p
      /\ accessControlState (m_client (snd (runState read p)))
         = accessControlState (m_client p)).
Proof.
  split; intros H; read_cases p; split; first [reflexivity | discriminate | congruence].
Qed.

(** ** The loop and the phases at both ends *)

(** X17.  A credentials message sent in one burst behind the choice of
    the authentication type is not processed by the same loop: the
    [read()] that takes the choice returns false, so the loop
    [while( read() ) { }] ends after this one round and what the codec
    left in the buffer waits for the next event. *)
Theorem loop_stops_after_type_choice (fuel : nat) p (message : VariantArrayMessage) :
  phase p = AuthenticationTypes ->
  messageAvailable p message ->
  In (chosenAuthType message) (supportedAuthTypes (m_serverAuthenticationManager p)) ->
  chosenAuthType message <> RfbVeyonAuth_None ->
  exists p',
    runState read p = (false, p')
    /\ runState (readLoop (S fuel)) p = (true, p')
    /\ (isOpen (m_socket p') = true ->
        readBuffer (m_socket p') = snd (vam_receive (readBuffer (m_socket p)))).
Proof.
  intros Hs Hav Hin Hne.
  destruct (processAuthenticationMessage (m_serverAuthenticationManager p)
              (clientAtAuthStart p message) []) as [[sam a] out] eqn:Ha.
  destruct (read_authType_chosen p message Hs Hav Hin Hne)
    as [p' [Hr [_ [_ [Ho _]]]]].
  rewrite Ha in Ho. cbn in Ho.
  exists p'. split; [exact Hr|]. split.
  - rewrite readLoop_S, Hr. reflexivity.
  - intros Hopen. destruct Hav as [Ho' [Hready Hrecv]].
    revert Hr. rewrite read_dispatch, Hs.
    unfold clientAtAuthStart, chosenAuthType in *. expose p.
    unfold receiveAuthenticationTypeResponse. cbn. rewrite Hready. cbn.
    destruct (vam_receive rb) as [r rest]. cbn in Hrecv. subst r. cbn.
    destruct (messageRead message) as [v message1] eqn:Hm. cbn in *.
    apply contains_In in Hin. rewrite Hin. cbn.
    rewrite (AuthType_eqb_neq _ _ Hne). cbn.
    destruct (messageRead message1) as [v' message2]. cbn in *.
    rewrite Ha. cbn.
    destruct a; cbn; intros Hr; inversion Hr; subst; cbn in *;
      first [reflexivity | discriminate].
Qed.

(** X18.  Outside the handshake [read()] takes nothing from the
    socket: before [start()] and once Running is reached, any number of
    calls return false and leave the object as it is, so the bytes of
    the session stay buffered for whoever handles it.  In the Close
    phase every call returns false, leaves the socket closed and the
    phase at Close. *)
Theorem reads_outside_handshake (n : nat) p :
  (phase p = Disconnected \/ phase p = Running ->
   runState (reads n) p = (repeat false n, p))
  /\ (phase p = Close ->
      fst (runState (reads (S n)) p) = repeat false (S n)
      /\ phase (snd (runState (reads (S n)) p)) = Close
      /\ isOpen (m_socket (snd (runState (reads (S n)) p))) = false
      /\ written (m_socket (snd (runState (reads (S n)) p))) = written (m_socket p)).
Proof.
  split.
  - intros Hs.
    assert (Hr : runState read p = (false, p))
      by (rewrite read_dispatch; destruct Hs as [Hs | Hs]; rewrite Hs; reflexivity).
    induction n as [|n IH]; [reflexivity|].
    rewrite reads_S, Hr, IH. reflexivity.
  - intros Hs.
    assert (Hstep : forall q, phase q = Close ->
              runState read q = (false, withSocket (sock_close (m_socket q)) q))
      by (intros q Hq; rewrite read_dispatch, Hq; reflexivity).
    assert (Hall : forall k q, phase q = Close ->
              fst (runState (reads k) q) = repeat false k
              /\ phase (snd (runState (reads k) q)) = Close
              /\ written (m_socket (snd (runState (reads k) q))) = written (m_socket q)
              /\ (isOpen (m_socket q) = false ->
                  isOpen (m_socket (snd (runState (reads k) q))) = false)).
    { induction k as [|k IH]; intros q Hq.
      - cbn. auto.
      - rewrite reads_S, (Hstep q Hq).
        destruct (IH (withSocket (sock_close (m_socket q)) q) Hq) as [I1 [I2 [I3 I4]]].
        destruct (runState (reads k) (withSocket (sock_close (m_socket q)) q))
          as [bs q2]. cbn in *.
        repeat split; [congruence | exact I2 | exact I3 | intros _; apply I4; reflexivity]. }
    rewrite reads_S, (Hstep p Hs).
    destruct (Hall n (withSocket (sock_close (m_socket p)) p) Hs) as [I1 [I2 [I3 I4]]].
    destruct (runState (reads n) (withSocket (sock_close (m_socket p)) p)) as [bs q2].
    cbn in *. repeat split; [congruence | exact I2 | apply I4; reflexivity | exact I3].
Qed.

(** X19.  The constructor resets the access-control state of the
    client, so a decision left on the client record does not count: the
    first [read()] of a newly constructed protocol in the AccessControl
    phase adds the client to the manager, and goes by what the manager
    says. *)
Theorem constructed_asks_manager (socket : QTcpSocket) (client : VncServerClient AuthType)
    (clientId : nat) (sam : ServerAuthenticationManager)
    (acm : ServerAccessControlManager) :
  protocolState client = AccessControl ->
  let p := construct socket client clientId sam acm in
  let asked := addClient acm (setAccessControlState AccessControlInit client) in
  fst (runState read p) = grants (snd asked)
  /\ accessControlState (m_client (snd (runState read p))) = snd asked
  /\ m_serverAccessControlManager (snd (runState read p)) = fst asked
  /\ m_serverInitMessage (snd (runState read p)) = [].
Proof.
  intros Hs. cbv zeta. rewrite read_dispatch. unfold phase, construct. cbn.
  rewrite Hs. unfold processAccessControl. cbn.
  destruct (addClient acm (setAccessControlState AccessControlInit client)) as [acm' a].
  cbn. destruct a; cbn; repeat split.
Qed.

End Properties.

Lemma readProtocol_surplus_no_progress_witness :
  phase bannerAndMore = Protocol
  /\ sz_rfbProtocolVersionMsg < sock_bytesAvailable (m_socket bannerAndMore)
  /\ runState read bannerAndMore = (false, bannerAndMore)
  /\ forall n, runState (reads n) bannerAndMore = (repeat false n, bannerAndMore).
Proof.
  assert (H : sz_rfbProtocolVersionMsg < sock_bytesAvailable (m_socket bannerAndMore))
    by (vm_compute; lia).
  split; [reflexivity|]. split; [exact H|].
  apply readProtocol_surplus_no_progress; [reflexivity | exact H].
Defined.

Lemma start_once_witness :
  phase freshConnection = Disconnected
  /\ isOpen (m_socket freshConnection) = true
  /\ exists p',
       runState start freshConnection = (tt, p')
       /\ phase p' = Protocol
       /\ written (m_socket p')
          = written (m_socket freshConnection)
            ++ list_byte_of_string "RFB 003.008" ++ [x0a]
       /\ readBuffer (m_socket p') = readBuffer (m_socket freshConnection)
       /\ isOpen (m_socket p') = true.
Proof.
  split; [reflexivity|]. split; [reflexivity|].
  apply (proj1 (start_once freshConnection)); reflexivity.
Defined.

Lemma read_undecided_accessControl_stalls_witness :
  phase (atAccessControl AccessControlWaiting) = AccessControl
  /\ undecided (accessControlState (m_client (atAccessControl AccessControlWaiting)))
  /\ subPhaseUnchangedFor 5 (atAccessControl AccessControlWaiting)
  /\ exists p',
       runState (reads 5) (atAccessControl AccessControlWaiting) = (repeat false 5, p')
       /\ m_socket p' = m_socket (atAccessControl AccessControlWaiting)
       /\ phase p' = AccessControl
       /\ accessControlState (m_client p')
          = accessControlState (m_client (atAccessControl AccessControlWaiting)).
Proof.
  assert (Hq : subPhaseUnchangedFor 5 (atAccessControl AccessControlWaiting))
    by (cbn; repeat split).
  split; [reflexivity|]. split; [right; reflexivity|]. split; [exact Hq|].
  exact (read_undecided_accessControl_stalls 5 (atAccessControl AccessControlWaiting)
           eq_refl (or_intror eq_refl) Hq).
Defined.

Lemma wrong_security_type_closes_witness :
  phase legacyVncAuth = SecurityInit
  /\ isOpen (m_socket legacyVncAuth) = true
  /\ readBuffer (m_socket legacyVncAuth) = [x02; x07]
  /\ x02 <> @rfbSecTypeVeyon Fixture.collaborators
  /\ exists p',
       runState read legacyVncAuth = (false, p')
       /\ isOpen (m_socket p') = false
       /\ written (m_socket p') = written (m_socket legacyVncAuth)
       /\ phase p' = SecurityInit
       /\ forall n, runState (reads n) p' = (repeat false n, p').
Proof.
  assert (H : x02 <> @rfbSecTypeVeyon Fixture.collaborators) by (cbn; discriminate).
  split; [reflexivity|]. split; [reflexivity|]. split; [reflexivity|].
  split; [exact H|].
  apply (wrong_security_type_closes legacyVncAuth x02 [x07]);
    [reflexivity | reflexivity | reflexivity | exact H].
Defined.

Lemma authentication_message_outcome_witness :
  phase passwordSent = Authenticating
  /\ isOpen (m_socket passwordSent) = true
  /\ Fixture.isReady (readBuffer (m_socket passwordSent)) = true
  /\ Fixture.decode (readBuffer (m_socket passwordSent))
     = (Some [Fixture.VString "secret"], [])
  /\ Fixture.processAuth [Fixture.authLogon] (m_client passwordSent)
       [Fixture.VString "secret"]
     = ([Fixture.authLogon], AuthFinishedSuccess, [])
  /\ exists p',
       runState read passwordSent = (true, p')
       /\ authState (m_client p') = AuthFinishedSuccess
       /\ readBuffer (m_socket p') = []
       /\ phase p' = AccessControl
       /\ isOpen (m_socket p') = true
       /\ written (m_socket p')
          = (written (m_socket passwordSent) ++ []) ++ [x00; x00; x00; x00]
       /\ qToBigEndian32 rfbVncAuthOK = [x00; x00; x00; x00].
Proof.
  split; [reflexivity|]. split; [reflexivity|]. split; [reflexivity|].
  split; [reflexivity|]. split; [reflexivity|].
  apply (authentication_message_outcome passwordSent [Fixture.VString "secret"] [] []
           [Fixture.authLogon] AuthFinishedSuccess); reflexivity.
Defined.







(** C3 fails as worded: twelve bytes that are not a version banner give
    no progress. *)
Lemma exactBytesGiveProgress_fails : ~ exactBytesGiveProgress httpRequest.
Proof.
  intros H. specialize (H 12 eq_refl eq_refl). vm_compute in H. discriminate.
Qed.

Lemma fixed_requirement_exact_witness :
  @requiredBytes Fixture.collaborators (phase bannerOnly) = Some 12
  /\ sock_bytesAvailable (m_socket bannerOnly) = 12
  /\ acceptableInput bannerOnly
  /\ exists p',
       runState read bannerOnly = (true, p')
       /\ readBuffer (m_socket p') = skipn 12 (readBuffer (m_socket bannerOnly))
       /\ phaseRank (phase p') = S (phaseRank (phase bannerOnly)).
Proof.
  assert (Hok : acceptableInput bannerOnly) by (vm_compute; discriminate).
  split; [reflexivity|]. split; [reflexivity|]. split; [exact Hok|].
  exact (proj2 (fixed_requirement_exact bannerOnly 12 eq_refl) eq_refl Hok).
Defined.

(** C5 fails as worded: after the choice of None the client record
    holds no peer address. *)
Lemma noneCapturesPeerAddress_fails : ~ noneCapturesPeerAddress noneChosen.
Proof.
  intros H.
  specialize (H [Fixture.VInt 1] eq_refl (conj eq_refl (conj eq_refl eq_refl)) eq_refl).
  vm_compute in H. discriminate.
Qed.

Lemma noneChosen_available : messageAvailable noneChosen [Fixture.VInt 1].
Proof. repeat split. Defined.

Lemma none_skips_authentication_witness :
  phase noneChosen = AuthenticationTypes
  /\ messageAvailable noneChosen [Fixture.VInt 1]
  /\ @chosenAuthType Fixture.collaborators [Fixture.VInt 1] = Fixture.authNone
  /\ In Fixture.authNone (supportedAuthTypes (m_serverAuthenticationManager noneChosen))
  /\ exists p',
       runState read noneChosen = (true, p')
       /\ phase p' = AccessControl
       /\ m_client p' = setProtocolState AccessControl (m_client noneChosen)
       /\ hostAddress (m_client p') = hostAddress (m_client noneChosen)
       /\ authState (m_client p') = authState (m_client noneChosen)
       /\ m_serverAuthenticationManager p' = m_serverAuthenticationManager noneChosen
       /\ written (m_socket p') = written (m_socket noneChosen)
       /\ readBuffer (m_socket p')
          = snd (Fixture.decode (readBuffer (m_socket noneChosen)))
       /\ isOpen (m_socket p') = true.
Proof.
  assert (Hin : In Fixture.authNone
                  (supportedAuthTypes (m_serverAuthenticationManager noneChosen)))
    by (left; reflexivity).
  split; [reflexivity|]. split; [exact noneChosen_available|].
  split; [reflexivity|]. split; [exact Hin|].
  exact (none_skips_authentication noneChosen [Fixture.VInt 1]
           eq_refl noneChosen_available eq_refl Hin).
Defined.

(** C8 fails as worded: the call below closes the socket on a failed
    authentication and leaves the phase at Authenticating, while it
    began in AuthenticationTypes. *)
Lemma closingReadKeepsPhase_fails : ~ closingReadKeepsPhase strangerChosen.
Proof.
  intros H. specialize (H eq_refl eq_refl). vm_compute in H. discriminate.
Qed.

Lemma strangerChosen_detected : detects AuthenticationFailedAtStart strangerChosen.
Proof.
  split; [reflexivity|].
  exists [Fixture.VInt 2; Fixture.VString "bob"].
  split; [repeat split|]. split; [left; reflexivity|].
  split; [discriminate | reflexivity].
Defined.

Lemma fatal_condition_closes_witness :
  detects AuthenticationFailedAtStart strangerChosen
  /\ exists p',
       runState read strangerChosen = (false, p')
       /\ isOpen (m_socket p') = false
       /\ phase p' <> Close
       /\ phase p' = Authenticating.
Proof.
  split; [exact strangerChosen_detected|].
  exact (fatal_condition_closes AuthenticationFailedAtStart strangerChosen
           strangerChosen_detected).
Defined.

(** * The further properties at concrete connections *)

Lemma readLoop_terminates_witness :
  9 - phaseRank (phase logonPipelined) <= 9
  /\ exists p',
       runState (readLoop (9 - phaseRank (phase logonPipelined))) logonPipelined
       = (true, p')
       /\ runState (readLoop 9) logonPipelined = (true, p').
Proof.
  assert (H : 9 - phaseRank (phase logonPipelined) <= 9) by (cbn; lia).
  split; [exact H|]. exact (readLoop_terminates 9 logonPipelined H).
Defined.

Lemma finishAccessControl_successful_any_phase_witness :
  accessControlState (m_client grantedEarly) = AccessControlSuccessful
  /\ phase grantedEarly = Authenticating
  /\ (phase (snd (runState (finishAccessControl 9 (m_clientId grantedEarly)) grantedEarly))
      = FramebufferInit
      \/ phase (snd (runState (finishAccessControl 9 (m_clientId grantedEarly))
                       grantedEarly)) = Running).
Proof.
  split; [reflexivity|]. split; [reflexivity|].
  exact (finishAccessControl_successful_any_phase 9 grantedEarly eq_refl).
Defined.

Lemma finishAccessControl_without_success_witness :
  2 <> m_clientId (atAccessControl AccessControlPending)
  /\ decisionAfterEnqueue (atAccessControl AccessControlPending) <> AccessControlSuccessful
  /\ runState (finishAccessControl 9 2) (atAccessControl AccessControlPending)
     = (true, atAccessControl AccessControlPending)
  /\ runState (finishAccessControl 9 1) (atAccessControl AccessControlPending)
     = (true, snd (runState processAccessControl (atAccessControl AccessControlPending))).
Proof.
  assert (H1 : 2 <> m_clientId (atAccessControl AccessControlPending))
    by (cbn; discriminate).
  assert (H2 : decisionAfterEnqueue (atAccessControl AccessControlPending)
               <> AccessControlSuccessful) by (cbn; discriminate).
  split; [exact H1|]. split; [exact H2|].
  pose proof (finishAccessControl_without_success 9 2
                (atAccessControl AccessControlPending)) as [Ha _].
  pose proof (finishAccessControl_without_success 9 1
                (atAccessControl AccessControlPending)) as [_ Hb].
  split; [exact (Ha H1) | exact (proj1 (Hb H2))].
Defined.

Lemma reads_on_closed_socket_witness :
  isOpen (m_socket closedEarly) = false
  /\ beforeAccessControl (phase closedEarly) = true
  /\ isOpen (m_socket (snd (runState (reads 4) closedEarly))) = false
  /\ written (m_socket (snd (runState (reads 4) closedEarly)))
     = written (m_socket closedEarly)
  /\ runState (reads 4) closedEarly = (repeat false 4, closedEarly).
Proof.
  split; [reflexivity|]. split; [reflexivity|].
  destruct (reads_on_closed_socket 4 closedEarly eq_refl) as [H1 [H2 H3]].
  split; [exact H1|]. split; [exact H2 | exact (H3 eq_refl)].
Defined.

Lemma identity_settled_witness :
  3 < phaseRank (phase passwordSent)
  /\ forall n, identity (snd (runState (reads n) passwordSent)) = identity passwordSent.
Proof.
  assert (H : 3 < phaseRank (phase passwordSent)) by (cbn; lia).
  split; [exact H|]. exact (proj1 (identity_settled passwordSent) H).
Defined.

Lemma no_payload_no_Running_witness :
  m_serverInitMessage justConstructed = []
  /\ phase justConstructed <> Running
  /\ (forall n,
         phase (snd (runState (reads n) justConstructed)) <> Running
         /\ m_serverInitMessage (snd (runState (reads n) justConstructed)) = [])
  /\ (forall fuel client,
         phase (snd (runState (finishAccessControl fuel client) justConstructed))
         <> Running).
Proof.
  assert (H : phase justConstructed <> Running) by (cbn; discriminate).
  split; [reflexivity|]. split; [exact H|].
  exact (no_payload_no_Running justConstructed eq_refl H).
Defined.

Lemma any_version_accepted_witness :
  3 < 1000 /\ 8 < 1000
  /\ phase bannerOnly = Protocol
  /\ isOpen (m_socket bannerOnly) = true
  /\ readBuffer (m_socket bannerOnly) = sprintf_rfbProtocolVersion 3 8
  /\ sscanf_rfbProtocolVersion (readBuffer (m_socket bannerOnly)) = Some (3, 8)%Z
  /\ exists p',
       runState read bannerOnly = (true, p')
       /\ phase p' = SecurityInit
       /\ readBuffer (m_socket p') = []
       /\ written (m_socket p') = written (m_socket bannerOnly) ++ [x01; x28].
Proof.
  assert (H3 : 3 < 1000) by lia. assert (H8 : 8 < 1000) by lia.
  split; [exact H3|]. split; [exact H8|].
  split; [reflexivity|]. split; [reflexivity|]. split; [reflexivity|].
  exact (any_version_accepted 3 8 bannerOnly H3 H8 eq_refl eq_refl eq_refl).
Defined.

Lemma banner_without_RFB_closes_witness :
  phase httpRequest = Protocol
  /\ isOpen (m_socket httpRequest) = true
  /\ length (readBuffer (m_socket httpRequest)) = sz_rfbProtocolVersionMsg
  /\ firstn 3 (readBuffer (m_socket httpRequest)) <> list_byte_of_string "RFB"
  /\ exists p',
       runState read httpRequest = (false, p')
       /\ isOpen (m_socket p') = false
       /\ phase p' = Protocol
       /\ written (m_socket p') = written (m_socket httpRequest).
Proof.
  assert (H : firstn 3 (readBuffer (m_socket httpRequest)) <> list_byte_of_string "RFB")
    by (vm_compute; discriminate).
  split; [reflexivity|]. split; [reflexivity|]. split; [reflexivity|].
  split; [exact H|].
  exact (banner_without_RFB_closes httpRequest eq_refl eq_refl eq_refl H).
Defined.

Lemma security_type_accepted_witness :
  phase securityChosen = SecurityInit
  /\ isOpen (m_socket securityChosen) = true
  /\ readBuffer (m_socket securityChosen) = x28 :: [x00; x00]
  /\ exists p',
       runState read securityChosen = (true, p')
       /\ phase p' = AuthenticationTypes
       /\ readBuffer (m_socket p') = [x00; x00]
       /\ isOpen (m_socket p') = true
       /\ written (m_socket p')
          = written (m_socket securityChosen)
            ++ Fixture.encode [Fixture.VInt 2; Fixture.VInt 4; Fixture.VInt 2].
Proof.
  split; [reflexivity|]. split; [reflexivity|]. split; [reflexivity|].
  exact (security_type_accepted securityChosen [x00; x00] eq_refl eq_refl eq_refl).
Defined.

Lemma framebufferInit_takes_clientInit_only_witness :
  phase clientInitAndMore = FramebufferInit
  /\ m_serverInitMessage clientInitAndMore <> []
  /\ isOpen (m_socket clientInitAndMore) = true
  /\ @sz_rfbClientInitMsg Fixture.collaborators
     <= length (readBuffer (m_socket clientInitAndMore))
  /\ exists p',
       runState read clientInitAndMore = (true, p')
       /\ phase p' = Running
       /\ readBuffer (m_socket p') = [x03; x00]
       /\ written (m_socket p') = list_byte_of_string "server-init"
       /\ runState read p' = (false, p').
Proof.
  assert (Hi : m_serverInitMessage clientInitAndMore <> []) by (cbn; discriminate).
  assert (Hn : @sz_rfbClientInitMsg Fixture.collaborators
               <= length (readBuffer (m_socket clientInitAndMore))) by (cbn; lia).
  split; [reflexivity|]. split; [exact Hi|]. split; [reflexivity|]. split; [exact Hn|].
  exact (proj2 (framebufferInit_takes_clientInit_only clientInitAndMore eq_refl)
           Hi eq_refl Hn).
Defined.

Lemma message_incomplete_or_undecodable_witness :
  awaitsMessage (phase garbledMessage) = true
  /\ isOpen (m_socket garbledMessage) = true
  /\ Fixture.isReady (readBuffer (m_socket garbledMessage)) = true
  /\ fst (Fixture.decode (readBuffer (m_socket garbledMessage))) = None
  /\ runState read garbledMessage
     = (false,
        withSocket (mkSocket true [x07] [] "10.0.0.5") garbledMessage).
Proof.
  split; [reflexivity|]. split; [reflexivity|]. split; [reflexivity|].
  split; [reflexivity|].
  exact (proj2 (message_incomplete_or_undecodable garbledMessage eq_refl)
           eq_refl eq_refl eq_refl).
Defined.

Lemma authentication_start_order_witness :
  phase logonChosen = AuthenticationTypes
  /\ messageAvailable logonChosen [Fixture.VInt 4; Fixture.VString "alice"]
  /\ In 4%Z (supportedAuthTypes (m_serverAuthenticationManager logonChosen))
  /\ 4%Z <> Fixture.authNone
  /\ Fixture.processAuth [Fixture.authLogon]
       (clientAtAuthStart logonChosen [Fixture.VInt 4; Fixture.VString "alice"]) []
     = ([Fixture.authLogon], AuthInProgress, Fixture.encode [Fixture.VInt 7])
  /\ exists p',
       runState read logonChosen = (false, p')
       /\ written (m_socket p')
          = written (m_socket logonChosen) ++ Fixture.encode []
            ++ Fixture.encode [Fixture.VInt 7] ++ []
       /\ m_serverAuthenticationManager p' = [Fixture.authLogon]
       /\ username (m_client p') = "alice"%string
       /\ readBuffer (m_socket p') = [].
Proof.
  assert (Hin : In 4%Z (supportedAuthTypes (m_serverAuthenticationManager logonChosen)))
    by (left; reflexivity).
  assert (Hne : 4%Z <> Fixture.authNone) by discriminate.
  split; [reflexivity|]. split; [repeat split|]. split; [exact Hin|].
  split; [exact Hne|]. split; [reflexivity|].
  exact (authentication_start_order logonChosen [Fixture.VInt 4; Fixture.VString "alice"]
           [Fixture.authLogon] AuthInProgress (Fixture.encode [Fixture.VInt 7])
           eq_refl (conj eq_refl (conj eq_refl eq_refl)) Hin Hne eq_refl).
Defined.

Lemma accessControl_by_decision_witness :
  phase (atAccessControl AccessControlInit) = AccessControl
  /\ decisionAfterEnqueue (atAccessControl AccessControlInit) = AccessControlWaiting
  /\ fst (runState read (atAccessControl AccessControlInit)) = false
  /\ accessControlState (m_client (snd (runState read (atAccessControl AccessControlInit))))
     = AccessControlWaiting
  /\ phase (snd (runState read (atAccessControl AccessControlInit))) = AccessControl
  /\ m_socket (snd (runState read (atAccessControl AccessControlInit)))
     = m_socket (atAccessControl AccessControlInit).
Proof.
  split; [reflexivity|]. split; [reflexivity|].
  destruct (accessControl_by_decision (atAccessControl AccessControlInit) eq_refl)
    as [H1 [H2 [H3 [_ [H5 _]]]]].
  split; [exact H1|]. split; [exact H2|]. split; [exact H3 | exact (H5 eq_refl)].
Defined.

Lemma collaborators_in_their_phases_witness :
  awaitsMessage (phase bannerOnly) = false
  /\ phase bannerOnly <> AccessControl
  /\ m_serverAuthenticationManager (snd (runState read bannerOnly))
     = m_serverAuthenticationManager bannerOnly
  /\ authState (m_client (snd (runState read bannerOnly))) = authState (m_client bannerOnly)
  /\ m_serverAccessControlManager (snd (runState read bannerOnly))
     = m_serverAccessControlManager bannerOnly
  /\ accessControlState (m_client (snd (runState read bannerOnly)))
     = accessControlState (m_client bannerOnly).
Proof.
  assert (H : phase bannerOnly <> AccessControl) by (cbn; discriminate).
  split; [reflexivity|]. split; [exact H|].
  destruct (collaborators_in_their_phases bannerOnly) as [Ha Hb].
  destruct (Ha eq_refl) as [H1 H2]. destruct (Hb H) as [H3 H4].
  split; [exact H1|]. split; [exact H2|]. split; [exact H3 | exact H4].
Defined.

Lemma loop_stops_after_type_choice_witness :
  phase logonPipelined = AuthenticationTypes
  /\ messageAvailable logonPipelined [Fixture.VInt 4; Fixture.VString "alice"]
  /\ In 4%Z (supportedAuthTypes (m_serverAuthenticationManager logonPipelined))
  /\ 4%Z <> Fixture.authNone
  /\ exists p',
       runState read logonPipelined = (false, p')
       /\ runState (readLoop 9) logonPipelined = (true, p')
       /\ (isOpen (m_socket p') = true ->
           readBuffer (m_socket p')
           = snd (Fixture.decode (readBuffer (m_socket logonPipelined)))).
Proof.
  assert (Hin : In 4%Z (supportedAuthTypes (m_serverAuthenticationManager logonPipelined)))
    by (left; reflexivity).
  assert (Hne : 4%Z <> Fixture.authNone) by discriminate.
  split; [reflexivity|]. split; [repeat split|]. split; [exact Hin|].
  split; [exact Hne|].
  exact (loop_stops_after_type_choice 8 logonPipelined
           [Fixture.VInt 4; Fixture.VString "alice"]
           eq_refl (conj eq_refl (conj eq_refl eq_refl)) Hin Hne).
Defined.

Lemma reads_outside_handshake_witness :
  (phase freshConnection = Disconnected \/ phase freshConnection = Running)
  /\ runState (reads 3) freshConnection = (repeat false 3, freshConnection).
Proof.
  assert (H : phase freshConnection = Disconnected \/ phase freshConnection = Running)
    by (left; reflexivity).
  split; [exact H|]. exact (proj1 (reads_outside_handshake 3 freshConnection) H).
Defined.

Lemma constructed_asks_manager_witness :
  protocolState staleClient = AccessControl
  /\ accessControlState staleClient = AccessControlSuccessful
  /\ fst (runState read justConstructed) = false
  /\ accessControlState (m_client (snd (runState read justConstructed)))
     = AccessControlPending.
Proof.
  split; [reflexivity|]. split; [reflexivity|].
  destruct (@constructed_asks_manager Fixture.collaborators
              (mkSocket true [x01] [] "10.0.0.5") staleClient 1 [Fixture.authLogon] 0
              eq_refl) as [H1 [H2 _]].
  split; [exact H1 | exact H2].
Defined.
